(** * usbkbd_cmdmode: command-mode layer of a USB boot-protocol keyboard driver

    A shallow embedding of [src/usbkbd_cmdmode.c]: the per-transition state
    machine [process_key], the synthetic macro [send_ctrl_alt_t] and the
    interrupt callback [usbkbd_cmd_irq] with its two differencing loops.

    Bytes and keycodes are [unsigned char] in the source and are modelled
    as [N]; no arithmetic is performed on them, only comparisons.  Calls
    into the kernel (input_report_key, input_sync, printk, usb_submit_urb)
    are recorded, in program order, in a list of effects.  [usbkbd_cmd_probe]
    and [usbkbd_cmd_disconnect] are modelled by the calls they make, given
    the answers of the kernel. *)

From stdpp Require Import base list numbers strings.
Local Open Scope N_scope.

(** ** Constants of linux/input-event-codes.h used by the driver *)

Definition KEY_Q : N := 16.
Definition KEY_T : N := 20.
Definition KEY_LEFTCTRL : N := 29.
Definition KEY_B : N := 48.
Definition KEY_LEFTALT : N := 56.
Definition KEY_SPACE : N := 57.
Definition KEY_RIGHTCTRL : N := 97.

(** The value of KEY_MAX in the kernel headers (0x2ff).  The state machine
    below is parametric in the bound; this is the value it is built with. *)
Definition LINUX_KEY_MAX : N := 767.

(** ** Effects *)

Inductive effect : Type :=
| InputKey (keycode : N) (pressed : bool)
    (* input_report_key(virt_input, keycode, pressed); input_sync(virt_input) *)
| LogCommandMode (enabled : bool)
    (* printk(KERN_INFO "... Command Mode %s", ENABLED / DISABLED) *)
| LogExitCommandMode
    (* printk(KERN_INFO "... Exiting Command Mode") *)
| LogUrbStatus (status : Z)
    (* printk(KERN_ERR "... URB status %d") *)
| SubmitUrb.
    (* usb_submit_urb(kbd->irq, GFP_ATOMIC) *)

(** What reaches the virtual input device, in order. *)
Fixpoint injected (es : list effect) : list (N * bool) :=
  match es with
  | [] => []
  | InputKey k p :: es' => (k, p) :: injected es'
  | _ :: es' => injected es'
  end.

(** ** Device state: the fields of [struct usbkbd_cmd] the core uses *)

Record usbkbd_cmd : Type := mk_usbkbd_cmd {
  command_mode : bool;
  ctrl_pressed : bool;
  space_pressed : bool;
  key_state : list bool   (* bool key_state[KEY_MAX] *)
}.

Definition set_command_mode (kbd : usbkbd_cmd) (b : bool) : usbkbd_cmd :=
  mk_usbkbd_cmd b (ctrl_pressed kbd) (space_pressed kbd) (key_state kbd).

Definition set_ctrl_pressed (kbd : usbkbd_cmd) (b : bool) : usbkbd_cmd :=
  mk_usbkbd_cmd (command_mode kbd) b (space_pressed kbd) (key_state kbd).

Definition set_space_pressed (kbd : usbkbd_cmd) (b : bool) : usbkbd_cmd :=
  mk_usbkbd_cmd (command_mode kbd) (ctrl_pressed kbd) b (key_state kbd).

Definition set_key_state (kbd : usbkbd_cmd) (keycode : N) (b : bool) : usbkbd_cmd :=
  mk_usbkbd_cmd (command_mode kbd) (ctrl_pressed kbd) (space_pressed kbd)
                (<[N.to_nat keycode := b]> (key_state kbd)).

(** ** send_key, send_ctrl_alt_t *)

Definition send_key (keycode : N) (pressed : bool) : list effect :=
  [InputKey keycode pressed].

Definition send_ctrl_alt_t : list effect :=
  send_key KEY_LEFTCTRL true ++
  send_key KEY_LEFTALT true ++
  send_key KEY_T true ++
  send_key KEY_T false ++
  send_key KEY_LEFTALT false ++
  send_key KEY_LEFTCTRL false.

Section Driver.

(** KEY_MAX comes from the kernel headers: it is both the size of
    [key_state] and the bound of the range check in [process_key]. *)
Variable KEY_MAX : N.

(** ** process_key *)

(** The three unconditional updates at the top of [process_key]:
    key_state[keycode], then the Ctrl latch, then the Space latch. *)
Definition record_key (kbd : usbkbd_cmd) (keycode : N) (pressed : bool) : usbkbd_cmd :=
  let kbd := set_key_state kbd keycode pressed in
  let kbd := if (keycode =? KEY_LEFTCTRL) || (keycode =? KEY_RIGHTCTRL)
             then set_ctrl_pressed kbd pressed else kbd in
  if keycode =? KEY_SPACE then set_space_pressed kbd pressed else kbd.

Definition process_key (kbd : usbkbd_cmd) (keycode : N) (pressed : bool)
  : usbkbd_cmd * list effect :=
  if KEY_MAX <=? keycode then (kbd, [])
  else
    let kbd := record_key kbd keycode pressed in
    if ctrl_pressed kbd && space_pressed kbd && pressed then
      let kbd := set_command_mode kbd (negb (command_mode kbd)) in
      (kbd, [LogCommandMode (command_mode kbd)])
    else if negb (command_mode kbd) then
      (kbd, send_key keycode pressed)
    else if negb pressed then
      (kbd, [])
    else if keycode =? KEY_B then
      (kbd, send_ctrl_alt_t ++ send_key KEY_B false)
    else if keycode =? KEY_Q then
      (set_command_mode kbd false, LogExitCommandMode :: send_key KEY_Q false)
    else
      (kbd, send_key keycode false).

(** ** usbkbd_cmd_irq *)

(** The inner [for (j = 0; j < 6; j++)] search with its [break]. *)
Fixpoint found_in (x : N) (arr : list N) : bool :=
  match arr with
  | [] => false
  | y :: arr' => if x =? y then true else found_in x arr'
  end.

(** First loop: "Release keys no longer pressed".  [olds] is the part of
    [old_keys] still to visit. *)
Fixpoint release_loop (kbd : usbkbd_cmd) (olds keys : list N)
  : usbkbd_cmd * list effect :=
  match olds with
  | [] => (kbd, [])
  | o :: olds' =>
      if o =? 0 then release_loop kbd olds' keys
      else if found_in o keys then release_loop kbd olds' keys
      else
        let '(kbd1, e1) := process_key kbd o false in
        let '(kbd2, e2) := release_loop kbd1 olds' keys in
        (kbd2, e1 ++ e2)
  end.

(** Second loop: "Press new keys".  [news] is the part of [keys] still to
    visit; the search is in the whole of [old_keys]. *)
Fixpoint press_loop (kbd : usbkbd_cmd) (old_keys news : list N)
  : usbkbd_cmd * list effect :=
  match news with
  | [] => (kbd, [])
  | k :: news' =>
      if k =? 0 then press_loop kbd old_keys news'
      else if found_in k old_keys then press_loop kbd old_keys news'
      else
        let '(kbd1, e1) := process_key kbd k true in
        let '(kbd2, e2) := press_loop kbd1 old_keys news' in
        (kbd2, e1 ++ e2)
  end.

(** [memcpy(keys, &data[2], 6)]: the six bytes at offsets 2..7 of the
    transfer buffer.  The source does not look at the size of the buffer;
    when it holds fewer than 8 bytes the copy reads past its end, which C
    leaves undefined: the model has no result there. *)
Definition read_keys (data : list N) : option (list N) :=
  let keys := take 6 (drop 2 data) in
  if (length keys =? 6)%nat then Some keys else None.

(** The static [old_keys] buffer, shared by every call, together with
    the device the callback is invoked for. *)
Record driver : Type := mk_driver {
  old_keys : list N;
  dev : usbkbd_cmd
}.

(** One completion callback: [status] is urb->status and [data] the
    contents of kbd->data (data_size bytes). *)
Definition usbkbd_cmd_irq (d : driver) (status : Z) (data : list N)
  : option (driver * list effect) :=
  if negb (status =? 0)%Z then Some (d, [LogUrbStatus status])
  else
    match read_keys data with
    | None => None
    | Some keys =>
        let '(kbd1, e1) := release_loop (dev d) (old_keys d) keys in
        let '(kbd2, e2) := press_loop kbd1 (old_keys d) keys in
        Some (mk_driver keys kbd2, e1 ++ e2 ++ [SubmitUrb])
    end.

(** The structure as [usbkbd_cmd_probe] leaves it (kzalloc). *)
Definition probe_kbd : usbkbd_cmd :=
  mk_usbkbd_cmd false false false (replicate (N.to_nat KEY_MAX) false).

(** [static unsigned char old_keys[6] = {0}]: the contents of the static
    buffer when the module is loaded. *)
Definition old_keys_init : list N := [0; 0; 0; 0; 0; 0].

(** What the first callback of a freshly probed device starts from: the
    structure of probe and the static buffer as it stands.  Neither probe
    nor disconnect resets the buffer: it holds [old_keys_init] at the
    first probe after module load, and later whatever the last callback
    of any device stored. *)
Definition probe_driver (stored : list N) : driver := mk_driver stored probe_kbd.

(** A device session: the callbacks of successive transfers, each given
    as (urb->status, buffer contents). *)
Fixpoint session (d : driver) (urbs : list (Z * list N))
  : option (driver * list effect) :=
  match urbs with
  | [] => Some (d, [])
  | (status, data) :: urbs' =>
      match usbkbd_cmd_irq d status data with
      | None => None
      | Some (d1, e1) =>
          match session d1 urbs' with
          | None => None
          | Some (d2, e2) => Some (d2, e1 ++ e2)
          end
      end
  end.

End Driver.

(** ** Notions used to state the properties *)

(** The transitions the two loops of [usbkbd_cmd_irq] hand to
    [process_key], as data: first the arguments of the calls of the release
    loop, then those of the press loop (see [usbkbd_cmd_irq_key_diff]). *)
Definition released_keys (old_keys keys : list N) : list N :=
  List.filter (fun o => negb (o =? 0) && negb (found_in o keys)) old_keys.

Definition pressed_keys (old_keys keys : list N) : list N :=
  List.filter (fun k => negb (k =? 0) && negb (found_in k old_keys)) keys.

Definition key_diff (old_keys keys : list N) : list (N * bool) :=
  List.map (fun o => (o, false)) (released_keys old_keys keys) ++
  List.map (fun k => (k, true)) (pressed_keys old_keys keys).

(** [process_key] applied to a batch of transitions, in order. *)
Fixpoint process_keys (KEY_MAX : N) (kbd : usbkbd_cmd) (ts : list (N * bool))
  : usbkbd_cmd * list effect :=
  match ts with
  | [] => (kbd, [])
  | (k, p) :: ts' =>
      let '(kbd1, e1) := process_key KEY_MAX kbd k p in
      let '(kbd2, e2) := process_keys KEY_MAX kbd1 ts' in
      (kbd2, e1 ++ e2)
  end.

(** The Ctrl and Space latches as they stand once a transition has been
    recorded, written out from lines 56-60 of the source. *)
Definition ctrl_held (kbd : usbkbd_cmd) (keycode : N) (pressed : bool) : bool :=
  if (keycode =? KEY_LEFTCTRL) || (keycode =? KEY_RIGHTCTRL)
  then pressed else ctrl_pressed kbd.

Definition space_held (kbd : usbkbd_cmd) (keycode : N) (pressed : bool) : bool :=
  if keycode =? KEY_SPACE then pressed else space_pressed kbd.

(** The condition of the chord test of line 63 for a transition. *)
Definition chord (kbd : usbkbd_cmd) (keycode : N) (pressed : bool) : bool :=
  ctrl_held kbd keycode pressed && space_held kbd keycode pressed && pressed.


(** The state of key [k] as the virtual input device sees it after the
    effects [es], starting from [v]: the value of the last event for [k]. *)
Fixpoint visible_from (k : N) (v : bool) (es : list effect) : bool :=
  match es with
  | [] => v
  | InputKey k' p :: es' => visible_from k (if k' =? k then p else v) es'
  | _ :: es' => visible_from k v es'
  end.

Definition visible (k : N) (es : list effect) : bool := visible_from k false es.

(** Every press in a sequence of events is followed, later in the
    sequence, by a release of the same keycode. *)
Definition released_after (evs : list (N * bool)) : Prop :=
  forall (i : nat) (k : N), evs !! i = Some (k, true) ->
    exists j : nat, (i < j)%nat /\ evs !! j = Some (k, false).



(** A device in Normal mode with an empty key table of [n] entries. *)
Definition idle_kbd (n : nat) : usbkbd_cmd :=
  mk_usbkbd_cmd false false false (replicate n false).

(** The events of the macro followed by the release of B. *)
Definition open_terminal_events : list (N * bool) :=
  [(KEY_LEFTCTRL, true); (KEY_LEFTALT, true); (KEY_T, true);
   (KEY_T, false); (KEY_LEFTALT, false); (KEY_LEFTCTRL, false); (KEY_B, false)].

(** A device in Command mode, no key held, with [n] table entries. *)
Definition command_kbd (n : nat) : usbkbd_cmd :=
  mk_usbkbd_cmd true false false (replicate n false).

(** A successful transfer (urb->status = 0) of an 8-byte boot report: no
    modifier, reserved byte 0, then the six key bytes. *)
Definition boot_report (keys : list N) : Z * list N := (0%Z, 0 :: 0 :: keys).







(** No key of the stored report is down. *)
Definition no_key_down (keys : list N) : bool := List.forallb (fun k => k =? 0) keys.


(** ** usbkbd_cmd_probe and usbkbd_cmd_disconnect *)

(** Constants of the kernel headers used by probe. *)
Definition ENOMEM : Z := 12.
Definition ENODEV : Z := 19.
Definition BUS_USB : N := 3.
Definition EV_KEY : N := 1.
Definition EV_CNT : N := 32.

(** The fields of the USB descriptors that probe reads. *)
Record usb_endpoint_descriptor : Type := mk_endpoint {
  bEndpointAddress : N;
  bmAttributes : N;
  wMaxPacketSize : N;
  bInterval : N
}.

Record usb_device_descriptor : Type := mk_descriptor {
  idVendor : N;
  idProduct : N;
  bcdDevice : N
}.

(** interface_to_usbdev(interface)->descriptor and the endpoints
    cur_altsetting->endpoint[0 .. bNumEndpoints-1]. *)
Record usb_interface : Type := mk_interface {
  descriptor : usb_device_descriptor;
  endpoint : list usb_endpoint_descriptor
}.

(** The fields of [struct input_dev] that probe writes; evbit and keybit
    are bitmaps. *)
Record input_dev : Type := mk_input_dev {
  name : string;
  phys : string;
  id_bustype : N;
  id_vendor : N;
  id_product : N;
  id_version : N;
  evbit : list bool;
  keybit : list bool
}.

(** The urb as filled by usb_fill_int_urb. *)
Record urb : Type := mk_urb {
  pipe_endpoint : N;
  transfer_buffer_length : N;
  interval : N
}.

(** [struct usbkbd_cmd] as probe leaves it: the state of the command-mode
    layer, the virtual input device, the size of the transfer buffer and
    the interrupt urb. *)
Record usbkbd_instance : Type := mk_instance {
  core : usbkbd_cmd;
  virt_input : input_dev;
  data_size : N;
  irq : urb
}.

(** What the kernel answers to the calls of probe that can fail. *)
Record kernel : Type := mk_kernel {
  kzalloc_ok : bool;
  input_allocate_device_ok : bool;
  input_register_device_ret : Z;
  usb_alloc_coherent_ok : bool;
  usb_alloc_urb_ok : bool;
  usb_submit_urb_ret : Z
}.

(** The calls of probe and disconnect that acquire, use or release a
    resource, and their log lines, in program order. *)
Inductive kcall : Type :=
| Kzalloc (ok : bool)
| Kfree
| InputAllocateDevice (ok : bool)
| InputFreeDevice
| InputRegisterDevice (ret : Z)
| InputUnregisterDevice
| UsbAllocCoherent (size : N) (ok : bool)
| UsbFreeCoherent (size : N)
| UsbAllocUrb (ok : bool)
| UsbFreeUrb
| UsbFillIntUrb (u : urb)
| UsbSetIntfdata
| UsbSubmitUrb (ret : Z)
| UsbKillUrb
| PrintkNoEndpoint
| PrintkRegistered
| PrintkDisconnected.

Record probe_result : Type := mk_probe_result {
  retval : Z;
  intfdata : option usbkbd_instance;
  calls : list kcall
}.

(** __set_bit(nr, bitmap) *)
Definition set_bit (nr : nat) (bitmap : list bool) : list bool := <[nr := true]> bitmap.

(** [for (i = 0; i < KEY_MAX; i++) __set_bit(i, keybit)], with [i] the
    counter and [n] the iterations left. *)
Fixpoint set_bits_from (i n : nat) (bitmap : list bool) : list bool :=
  match n with
  | O => bitmap
  | S n' => set_bits_from (S i) n' (set_bit i bitmap)
  end.

Section Probe.

Variable KEY_MAX : N.

(** usb_endpoint_is_int_in, a helper of the kernel's USB headers. *)
Variable usb_endpoint_is_int_in : usb_endpoint_descriptor -> bool.

(** The endpoint search, with its [break]. *)
Fixpoint find_int_in (eps : list usb_endpoint_descriptor) : option usb_endpoint_descriptor :=
  match eps with
  | [] => None
  | ep :: eps' => if usb_endpoint_is_int_in ep then Some ep else find_int_in eps'
  end.

(** The virtual input device as set up before input_register_device:
    zeroed by input_allocate_device (EV_CNT event bits, KEY_MAX + 1 key
    bits), then named, identified and given its capabilities. *)
Definition probe_input_dev (interface : usb_interface) : input_dev :=
  mk_input_dev "usbkbd_cmdmode_virtual" "usb/input0" BUS_USB
    (idVendor (descriptor interface))
    (idProduct (descriptor interface))
    (bcdDevice (descriptor interface))
    (set_bit (N.to_nat EV_KEY) (replicate (N.to_nat EV_CNT) false))
    (set_bits_from 0 (N.to_nat KEY_MAX) (replicate (S (N.to_nat KEY_MAX)) false)).

(** [usbkbd_cmd_probe]: the return value, what probe stored in the
    interface data with usb_set_intfdata ([None] when it returned before
    line 248) and the calls made.  The interface data is stored before
    the urb is submitted and is not cleared when the submission fails: it
    then still designates the structure, which probe has freed; the
    instance gives the contents it had when freed.  The pointers kept in
    the structure (usbdev, interface, data, data_dma, transfer_dma and the
    transfer flag) carry no value of their own and are not represented;
    wMaxPacketSize is read as the source reads it. *)
Definition usbkbd_cmd_probe (k : kernel) (interface : usb_interface) : probe_result :=
  if negb (kzalloc_ok k) then
    mk_probe_result (- ENOMEM) None [Kzalloc false]
  else
    let t := [Kzalloc true] in
    if negb (input_allocate_device_ok k) then
      mk_probe_result (- ENOMEM) None (t ++ [InputAllocateDevice false; Kfree])
    else
      let t := t ++ [InputAllocateDevice true] in
      let retval := input_register_device_ret k in
      let t := t ++ [InputRegisterDevice retval] in
      if negb (retval =? 0)%Z then
        mk_probe_result retval None (t ++ [InputFreeDevice; Kfree])
      else
        match find_int_in (endpoint interface) with
        | None =>
            mk_probe_result (- ENODEV) None
              (t ++ [PrintkNoEndpoint; InputUnregisterDevice; Kfree])
        | Some ep =>
            let size := wMaxPacketSize ep in
            if negb (usb_alloc_coherent_ok k) then
              mk_probe_result (- ENOMEM) None
                (t ++ [UsbAllocCoherent size false; InputUnregisterDevice; Kfree])
            else
              let t := t ++ [UsbAllocCoherent size true] in
              if negb (usb_alloc_urb_ok k) then
                mk_probe_result (- ENOMEM) None
                  (t ++ [UsbAllocUrb false; UsbFreeCoherent size;
                         InputUnregisterDevice; Kfree])
              else
                let u := mk_urb (bEndpointAddress ep) size (bInterval ep) in
                let kbd := mk_instance (probe_kbd KEY_MAX)
                             (probe_input_dev interface) size u in
                let t := t ++ [UsbAllocUrb true; UsbFillIntUrb u; UsbSetIntfdata] in
                let retval := usb_submit_urb_ret k in
                let t := t ++ [UsbSubmitUrb retval] in
                if negb (retval =? 0)%Z then
                  mk_probe_result retval (Some kbd)
                    (t ++ [UsbFreeUrb; UsbFreeCoherent size;
                           InputUnregisterDevice; Kfree])
                else
                  mk_probe_result 0%Z (Some kbd) (t ++ [PrintkRegistered])
        end.

End Probe.

(** usbkbd_cmd_disconnect, given what usb_get_intfdata returns: the calls
    it makes. *)
Definition usbkbd_cmd_disconnect (intf : option usbkbd_instance) : list kcall :=
  match intf with
  | None => []
  | Some kbd =>
      [UsbKillUrb; UsbFreeUrb; UsbFreeCoherent (data_size kbd);
       InputUnregisterDevice; Kfree; PrintkDisconnected]
  end.

(** usb_endpoint_is_int_in as the kernel defines it: direction IN (bit 7
    of the address) and transfer type interrupt (3 in the two low bits of
    the attributes). *)
Definition linux_usb_endpoint_is_int_in (ep : usb_endpoint_descriptor) : bool :=
  (N.land (bEndpointAddress ep) 128 =? 128) && (N.land (bmAttributes ep) 3 =? 3).

(** The resources probe acquires. *)
Inductive resource : Type :=
| RKbd
| RInputAllocated
| RInputRegistered
| RDma (size : N)
| RUrb.

(** The resources held after a sequence of calls, most recent first,
    starting from [rs]; [None] when a call releases or uses something
    other than the most recently acquired resource still held. *)
Fixpoint held (rs : list resource) (cs : list kcall) : option (list resource) :=
  match cs with
  | [] => Some rs
  | c :: cs' =>
      match c, rs with
      | Kzalloc true, _ => held (RKbd :: rs) cs'
      | Kzalloc false, _ => held rs cs'
      | Kfree, RKbd :: rs' => held rs' cs'
      | InputAllocateDevice true, _ => held (RInputAllocated :: rs) cs'
      | InputAllocateDevice false, _ => held rs cs'
      | InputFreeDevice, RInputAllocated :: rs' => held rs' cs'
      | InputRegisterDevice ret, RInputAllocated :: rs' =>
          if (ret =? 0)%Z then held (RInputRegistered :: rs') cs' else held rs cs'
      | InputUnregisterDevice, RInputRegistered :: rs' => held rs' cs'
      | UsbAllocCoherent size true, _ => held (RDma size :: rs) cs'
      | UsbAllocCoherent _ false, _ => held rs cs'
      | UsbFreeCoherent size, RDma size' :: rs' =>
          if size =? size' then held rs' cs' else None
      | UsbAllocUrb true, _ => held (RUrb :: rs) cs'
      | UsbAllocUrb false, _ => held rs cs'
      | UsbFreeUrb, RUrb :: rs' => held rs' cs'
      | UsbFillIntUrb _, RUrb :: _ => held rs cs'
      | UsbSubmitUrb _, RUrb :: _ => held rs cs'
      | UsbKillUrb, RUrb :: _ => held rs cs'
      | UsbSetIntfdata, _ => held rs cs'
      | PrintkNoEndpoint, _ => held rs cs'
      | PrintkRegistered, _ => held rs cs'
      | PrintkDisconnected, _ => held rs cs'
      | _, _ => None
      end
  end.

(** ** Further notions *)

(** The two key sets hold the same non-zero keycodes. *)
Definition same_keys (old_keys keys : list N) : bool :=
  List.forallb (fun o => (o =? 0) || found_in o keys) old_keys &&
  List.forallb (fun k => (k =? 0) || found_in k old_keys) keys.




(** Every buffer delivered with status 0 holds at least 8 bytes. *)
Definition buffers_ok (urbs : list (Z * list N)) : bool :=
  List.forallb (fun u => negb (fst u =? 0)%Z || (8 <=? length (snd u))%nat) urbs.

(** The number of times the urb is resubmitted. *)
Fixpoint submissions (es : list effect) : nat :=
  match es with
  | [] => O
  | SubmitUrb :: es' => S (submissions es')
  | _ :: es' => submissions es'
  end.

(** The number of transfers delivered with status 0. *)
Definition completed (urbs : list (Z * list N)) : nat :=
  length (List.filter (fun u => (fst u =? 0)%Z) urbs).

(** Two keyboards bound to the driver: each has its own
    [struct usbkbd_cmd], both callbacks use the one static [old_keys]. *)
Record two_keyboards : Type := mk_two_keyboards {
  shared_old_keys : list N;
  kbd_a : usbkbd_cmd;
  kbd_b : usbkbd_cmd
}.

Definition irq_a (KEY_MAX : N) (s : two_keyboards) (status : Z) (data : list N)
  : option (two_keyboards * list effect) :=
  match usbkbd_cmd_irq KEY_MAX (mk_driver (shared_old_keys s) (kbd_a s)) status data with
  | None => None
  | Some (d, es) => Some (mk_two_keyboards (old_keys d) (dev d) (kbd_b s), es)
  end.

Definition irq_b (KEY_MAX : N) (s : two_keyboards) (status : Z) (data : list N)
  : option (two_keyboards * list effect) :=
  match usbkbd_cmd_irq KEY_MAX (mk_driver (shared_old_keys s) (kbd_b s)) status data with
  | None => None
  | Some (d, es) => Some (mk_two_keyboards (old_keys d) (kbd_a s) (dev d), es)
  end.

(** ** Basic facts about the model *)

Lemma found_in_In (x : N) (arr : list N) : found_in x arr = true <-> In x arr.
Proof.
  induction arr as [|y arr IH]; simpl.
  - split; [discriminate | tauto].
  - destruct (N.eqb_spec x y) as [->|Hne].
    + split; auto.
    + rewrite IH. split; [auto | intros [H|H]; [congruence | exact H]].
Qed.

Lemma found_in_not_In (x : N) (arr : list N) : found_in x arr = false <-> ~ In x arr.
Proof.
  rewrite <- found_in_In. destruct (found_in x arr); split; congruence.
Qed.

Lemma released_keys_In (old_keys keys : list N) (k : N) :
  In k (released_keys old_keys keys) <-> k <> 0 /\ In k old_keys /\ ~ In k keys.
Proof.
  unfold released_keys. rewrite List.filter_In, andb_true_iff, !negb_true_iff.
  rewrite N.eqb_neq, found_in_not_In. tauto.
Qed.

Lemma pressed_keys_In (old_keys keys : list N) (k : N) :
  In k (pressed_keys old_keys keys) <-> k <> 0 /\ In k keys /\ ~ In k old_keys.
Proof.
  unfold pressed_keys. rewrite List.filter_In, andb_true_iff, !negb_true_iff.
  rewrite N.eqb_neq, found_in_not_In. tauto.
Qed.

Lemma process_keys_app (KEY_MAX : N) (ts1 ts2 : list (N * bool)) (kbd : usbkbd_cmd) :
  process_keys KEY_MAX kbd (ts1 ++ ts2) =
  let '(kbd1, e1) := process_keys KEY_MAX kbd ts1 in
  let '(kbd2, e2) := process_keys KEY_MAX kbd1 ts2 in
  (kbd2, e1 ++ e2).
Proof.
  revert kbd. induction ts1 as [|[k p] ts1 IH]; intros kbd; simpl.
  - destruct (process_keys KEY_MAX kbd ts2); reflexivity.
  - destruct (process_key KEY_MAX kbd k p) as [kbd1 e1].
    rewrite IH.
    destruct (process_keys KEY_MAX kbd1 ts1) as [kbd2 e2].
    destruct (process_keys KEY_MAX kbd2 ts2) as [kbd3 e3].
    rewrite app_assoc. reflexivity.
Qed.

Lemma release_loop_process_keys (KEY_MAX : N) (olds keys : list N) (kbd : usbkbd_cmd) :
  release_loop KEY_MAX kbd olds keys =
  process_keys KEY_MAX kbd (List.map (fun o => (o, false)) (released_keys olds keys)).
Proof.
  revert kbd. induction olds as [|o olds IH]; intros kbd; simpl; [reflexivity|].
  destruct (o =? 0); simpl; [apply IH|].
  destruct (found_in o keys); simpl; [apply IH|].
  destruct (process_key KEY_MAX kbd o false) as [kbd1 e1].
  rewrite IH. reflexivity.
Qed.

Lemma press_loop_process_keys (KEY_MAX : N) (old_keys news : list N) (kbd : usbkbd_cmd) :
  press_loop KEY_MAX kbd old_keys news =
  process_keys KEY_MAX kbd (List.map (fun k => (k, true)) (pressed_keys old_keys news)).
Proof.
  revert kbd. induction news as [|k news IH]; intros kbd; simpl; [reflexivity|].
  destruct (k =? 0); simpl; [apply IH|].
  destruct (found_in k old_keys); simpl; [apply IH|].
  destruct (process_key KEY_MAX kbd k true) as [kbd1 e1].
  rewrite IH. reflexivity.
Qed.

(** The callback is the state machine run over the difference of the
    stored and the incoming key sets. *)
Lemma usbkbd_cmd_irq_key_diff (KEY_MAX : N) (d : driver) (data : list N) :
  usbkbd_cmd_irq KEY_MAX d 0 data =
  match read_keys data with
  | None => None
  | Some keys =>
      let '(kbd', es) := process_keys KEY_MAX (dev d) (key_diff (old_keys d) keys) in
      Some (mk_driver keys kbd', es ++ [SubmitUrb])
  end.
Proof.
  unfold usbkbd_cmd_irq; simpl.
  destruct (read_keys data) as [keys|]; [|reflexivity].
  unfold key_diff. rewrite process_keys_app, release_loop_process_keys.
  destruct (process_keys KEY_MAX (dev d) _) as [kbd1 e1].
  rewrite press_loop_process_keys.
  destruct (process_keys KEY_MAX kbd1 _) as [kbd2 e2].
  rewrite app_assoc. reflexivity.
Qed.

(** *** The branches of [process_key] *)

Lemma record_key_command_mode (kbd : usbkbd_cmd) (k : N) (p : bool) :
  command_mode (record_key kbd k p) = command_mode kbd.
Proof.
  unfold record_key.
  destruct ((k =? KEY_LEFTCTRL) || (k =? KEY_RIGHTCTRL)), (k =? KEY_SPACE); reflexivity.
Qed.

Lemma record_key_ctrl_pressed (kbd : usbkbd_cmd) (k : N) (p : bool) :
  ctrl_pressed (record_key kbd k p) = ctrl_held kbd k p.
Proof.
  unfold record_key, ctrl_held.
  destruct ((k =? KEY_LEFTCTRL) || (k =? KEY_RIGHTCTRL)), (k =? KEY_SPACE); reflexivity.
Qed.

Lemma record_key_space_pressed (kbd : usbkbd_cmd) (k : N) (p : bool) :
  space_pressed (record_key kbd k p) = space_held kbd k p.
Proof.
  unfold record_key, space_held.
  destruct ((k =? KEY_LEFTCTRL) || (k =? KEY_RIGHTCTRL)), (k =? KEY_SPACE); reflexivity.
Qed.


Lemma record_key_chord (kbd : usbkbd_cmd) (k : N) (p : bool) :
  ctrl_pressed (record_key kbd k p) && space_pressed (record_key kbd k p) && p
  = chord kbd k p.
Proof. rewrite record_key_ctrl_pressed, record_key_space_pressed. reflexivity. Qed.

Lemma process_key_out_of_range (KEY_MAX : N) (kbd : usbkbd_cmd) (k : N) (p : bool) :
  KEY_MAX <= k -> process_key KEY_MAX kbd k p = (kbd, []).
Proof.
  intros H. unfold process_key.
  destruct (N.leb_spec KEY_MAX k); [reflexivity | lia].
Qed.

(** [process_key] for a keycode that passes the range check, by cases on
    the chord test, the mode and the direction of the transition. *)
Lemma process_key_in_range (KEY_MAX : N) (kbd : usbkbd_cmd) (k : N) (p : bool) :
  k < KEY_MAX ->
  process_key KEY_MAX kbd k p =
  let kbd1 := record_key kbd k p in
  if chord kbd k p then
    (set_command_mode kbd1 (negb (command_mode kbd)),
     [LogCommandMode (negb (command_mode kbd))])
  else if negb (command_mode kbd) then (kbd1, send_key k p)
  else if negb p then (kbd1, [])
  else if k =? KEY_B then (kbd1, send_ctrl_alt_t ++ send_key KEY_B false)
  else if k =? KEY_Q then
    (set_command_mode kbd1 false, LogExitCommandMode :: send_key KEY_Q false)
  else (kbd1, send_key k false).
Proof.
  intros H. unfold process_key.
  destruct (N.leb_spec KEY_MAX k); [lia|].
  cbv zeta. rewrite record_key_chord, !record_key_command_mode.
  destruct (chord kbd k p); reflexivity.
Qed.

Lemma process_key_command_mode_release (KEY_MAX : N) (kbd : usbkbd_cmd) (k : N) :
  command_mode (fst (process_key KEY_MAX kbd k false)) = command_mode kbd.
Proof.
  destruct (N.lt_ge_cases k KEY_MAX) as [H|H].
  - rewrite process_key_in_range by exact H. cbv zeta.
    replace (chord kbd k false) with false
      by (unfold chord; rewrite andb_false_r; reflexivity).
    destruct (command_mode kbd) eqn:E; simpl;
      rewrite record_key_command_mode; exact E.
  - rewrite process_key_out_of_range by exact H. reflexivity.
Qed.

(** ** The key-event differ *)

Lemma key_diff_In_release (old_keys keys : list N) (k : N) :
  In (k, false) (key_diff old_keys keys) <-> k <> 0 /\ In k old_keys /\ ~ In k keys.
Proof.
  rewrite <- released_keys_In.
  unfold key_diff. rewrite List.in_app_iff, !List.in_map_iff. split.
  - intros [(o & Ho & Hin) | (o & Ho & _)]; [|discriminate].
    injection Ho as ->. exact Hin.
  - intros Hin. left. exists k. auto.
Qed.

Lemma key_diff_In_press (old_keys keys : list N) (k : N) :
  In (k, true) (key_diff old_keys keys) <-> k <> 0 /\ In k keys /\ ~ In k old_keys.
Proof.
  rewrite <- pressed_keys_In.
  unfold key_diff. rewrite List.in_app_iff, !List.in_map_iff. split.
  - intros [(o & Ho & _) | (o & Ho & Hin)]; [discriminate|].
    injection Ho as ->. exact Hin.
  - intros Hin. right. exists k. auto.
Qed.

Lemma usbkbd_cmd_irq_unfold (KEY_MAX : N) (d : driver) (status : Z) (data : list N) :
  usbkbd_cmd_irq KEY_MAX d status data =
  if negb (status =? 0)%Z then Some (d, [LogUrbStatus status])
  else match read_keys data with
       | None => None
       | Some keys =>
           let '(kbd', es) := process_keys KEY_MAX (dev d) (key_diff (old_keys d) keys) in
           Some (mk_driver keys kbd', es ++ [SubmitUrb])
       end.
Proof.
  destruct (Z.eqb_spec status 0) as [->|Hne]; simpl.
  - apply usbkbd_cmd_irq_key_diff.
  - unfold usbkbd_cmd_irq. apply Z.eqb_neq in Hne. rewrite Hne. reflexivity.
Qed.

(** C2: the transitions handed to the state machine are a release for
    each non-zero keycode of the stored key set that the incoming one
    lacks, a press for each non-zero keycode of the incoming key set that
    the stored one lacks, none for keycode 0, and all the releases come
    before all the presses; [usbkbd_cmd_irq] runs [process_key] over
    exactly this sequence. *)
Theorem key_diff_transitions (old_keys keys : list N) :
  (forall k, In (k, false) (key_diff old_keys keys) <->
             k <> 0 /\ In k old_keys /\ ~ In k keys) /\
  (forall k, In (k, true) (key_diff old_keys keys) <->
             k <> 0 /\ In k keys /\ ~ In k old_keys) /\
  (forall p, ~ In (0, p) (key_diff old_keys keys)) /\
  (exists rs ps, key_diff old_keys keys = rs ++ ps /\
                 Forall (fun t => snd t = false) rs /\
                 Forall (fun t => snd t = true) ps) /\
  (forall KEY_MAX kbd data,
     usbkbd_cmd_irq KEY_MAX (mk_driver old_keys kbd) 0 data =
     match read_keys data with
     | None => None
     | Some keys' =>
         let '(kbd', es) := process_keys KEY_MAX kbd (key_diff old_keys keys') in
         Some (mk_driver keys' kbd', es ++ [SubmitUrb])
     end).
Proof.
  split; [|split; [|split; [|split]]].
  - intros k. apply key_diff_In_release.
  - intros k. apply key_diff_In_press.
  - intros [|] Hin.
    + apply key_diff_In_press in Hin. tauto.
    + apply key_diff_In_release in Hin. tauto.
  - eexists _, _. split; [reflexivity|].
    split; apply List.Forall_forall; intros [k p] Hin;
      apply List.in_map_iff in Hin as (x & Hx & _); injection Hx as _ <-; reflexivity.
  - intros KEY_MAX kbd data. apply usbkbd_cmd_irq_key_diff.
Qed.

(** ** The chord test *)

(** C3: for a keycode in the supported range, [process_key] toggles the
    mode and forwards nothing exactly when, with the Ctrl and Space latches
    as updated by this transition, both latches are set and the transition
    is a press. *)
Theorem chord_toggle_exactly (KEY_MAX : N) (kbd : usbkbd_cmd) (keycode : N) (pressed : bool) :
  keycode < KEY_MAX ->
  (command_mode (fst (process_key KEY_MAX kbd keycode pressed)) = negb (command_mode kbd) /\
   injected (snd (process_key KEY_MAX kbd keycode pressed)) = [])
  <->
  (ctrl_held kbd keycode pressed = true /\ space_held kbd keycode pressed = true /\
   pressed = true).
Proof.
  intros Hr. rewrite process_key_in_range by exact Hr. cbv zeta.
  destruct (chord kbd keycode pressed) eqn:Ec.
  - unfold chord in Ec. apply andb_true_iff in Ec as [Ec Hp].
    apply andb_true_iff in Ec as [Hc Hs].
    split; [intros _; auto | intros _; split; reflexivity].
  - split.
    + intros [Hm Ho]. exfalso.
      destruct (command_mode kbd) eqn:E; simpl in Hm, Ho; [|discriminate Ho].
      destruct pressed; simpl in Hm, Ho.
      * destruct (keycode =? KEY_B); [discriminate Ho|].
        destruct (keycode =? KEY_Q); discriminate Ho.
      * rewrite record_key_command_mode, E in Hm. discriminate Hm.
    + intros (Hc & Hs & Hp). unfold chord in Ec.
      rewrite Hc, Hs, Hp in Ec. discriminate Ec.
Qed.

Lemma chord_toggle_exactly_witness :
  KEY_SPACE < LINUX_KEY_MAX /\
  ((command_mode (fst (process_key LINUX_KEY_MAX
       (mk_usbkbd_cmd false true false (replicate 767 false)) KEY_SPACE true)) = negb false /\
    injected (snd (process_key LINUX_KEY_MAX
       (mk_usbkbd_cmd false true false (replicate 767 false)) KEY_SPACE true)) = [])
   <->
   (ctrl_held (mk_usbkbd_cmd false true false (replicate 767 false)) KEY_SPACE true = true /\
    space_held (mk_usbkbd_cmd false true false (replicate 767 false)) KEY_SPACE true = true /\
    true = true)).
Proof.
  split; [reflexivity|].
  apply (chord_toggle_exactly LINUX_KEY_MAX
           (mk_usbkbd_cmd false true false (replicate 767 false)) KEY_SPACE true).
  reflexivity.
Defined.

(** ** The range check *)

(** C9: a transition whose keycode is at or above KEY_MAX is dropped by
    [process_key]: nothing is forwarded and the device state (key table,
    latches, mode) is returned as it was; the transitions before and after
    it in a batch are processed as if it were not there. *)
Theorem out_of_range_transition_dropped
    (KEY_MAX : N) (kbd : usbkbd_cmd) (keycode : N) (pressed : bool)
    (before after : list (N * bool)) :
  KEY_MAX <= keycode ->
  process_key KEY_MAX kbd keycode pressed = (kbd, []) /\
  process_keys KEY_MAX kbd (before ++ (keycode, pressed) :: after) =
  process_keys KEY_MAX kbd (before ++ after).
Proof.
  intros H. split; [apply process_key_out_of_range; exact H|].
  rewrite !process_keys_app.
  destruct (process_keys KEY_MAX kbd before) as [kbd1 e1].
  simpl. rewrite process_key_out_of_range by exact H.
  destruct (process_keys KEY_MAX kbd1 after) as [kbd2 e2]. reflexivity.
Qed.

Lemma out_of_range_transition_dropped_witness :
  128 <= 200 /\
  process_key 128 (idle_kbd 128) 200 true = (idle_kbd 128, []) /\
  process_keys 128 (idle_kbd 128) ([(4, true)] ++ (200, true) :: [(4, false)]) =
  process_keys 128 (idle_kbd 128) ([(4, true)] ++ [(4, false)]).
Proof.
  split; [discriminate|].
  apply (out_of_range_transition_dropped 128 (idle_kbd 128) 200 true
           [(4, true)] [(4, false)]).
  discriminate.
Defined.

(** With the kernel's KEY_MAX no byte of a report reaches the range check. *)
Lemma byte_below_LINUX_KEY_MAX (k : N) : k < 256 -> k < LINUX_KEY_MAX.
Proof. unfold LINUX_KEY_MAX. lia. Qed.

(** ** Command mode *)

(** A press of B that passes the range check in Command mode: consumed
    by the chord test when both latches are set, the macro otherwise. *)
Lemma process_key_B_command_mode (KEY_MAX : N) (kbd : usbkbd_cmd) :
  KEY_B < KEY_MAX -> command_mode kbd = true ->
  process_key KEY_MAX kbd KEY_B true =
  if ctrl_pressed kbd && space_pressed kbd
  then (set_command_mode (set_key_state kbd KEY_B true) false, [LogCommandMode false])
  else (set_key_state kbd KEY_B true, send_ctrl_alt_t ++ send_key KEY_B false).
Proof.
  intros Hr Hm. rewrite process_key_in_range by exact Hr. cbv zeta.
  unfold chord, ctrl_held, space_held. simpl. rewrite Hm, andb_true_r.
  destruct (ctrl_pressed kbd && space_pressed kbd); reflexivity.
Qed.

Lemma macro_emitted_inv (KEY_MAX : N) (kbd : usbkbd_cmd) :
  injected (snd (process_key KEY_MAX kbd KEY_B true)) = open_terminal_events ->
  process_key KEY_MAX kbd KEY_B true =
  (set_key_state kbd KEY_B true, send_ctrl_alt_t ++ send_key KEY_B false) /\
  command_mode kbd = true.
Proof.
  intros He.
  destruct (N.lt_ge_cases KEY_B KEY_MAX) as [Hr|Hr].
  - destruct (command_mode kbd) eqn:Hm.
    + rewrite process_key_B_command_mode in * by assumption.
      destruct (ctrl_pressed kbd && space_pressed kbd); [discriminate He|auto].
    + rewrite process_key_in_range in He by exact Hr. cbv zeta in He.
      rewrite Hm in He. destruct (chord kbd KEY_B true); discriminate He.
  - rewrite process_key_out_of_range in He by exact Hr. discriminate He.
Qed.

(** C10: when a press of B makes [process_key] emit the open-terminal
    macro and the release of B, the device was in Command mode and is left
    with the same mode and the same Ctrl and Space latches, and the key
    table differs at most in the entry of B, which is set: the entries of
    Ctrl, Alt and T are not touched by the macro. *)
Theorem open_terminal_macro_frame (KEY_MAX : N) (kbd : usbkbd_cmd) :
  injected (snd (process_key KEY_MAX kbd KEY_B true)) = open_terminal_events ->
  command_mode kbd = true /\
  command_mode (fst (process_key KEY_MAX kbd KEY_B true)) = command_mode kbd /\
  ctrl_pressed (fst (process_key KEY_MAX kbd KEY_B true)) = ctrl_pressed kbd /\
  space_pressed (fst (process_key KEY_MAX kbd KEY_B true)) = space_pressed kbd /\
  key_state (fst (process_key KEY_MAX kbd KEY_B true)) =
    <[N.to_nat KEY_B := true]> (key_state kbd) /\
  (forall k : N, k <> KEY_B ->
     key_state (fst (process_key KEY_MAX kbd KEY_B true)) !! N.to_nat k =
     key_state kbd !! N.to_nat k).
Proof.
  intros He. apply macro_emitted_inv in He as [-> Hm]. simpl.
  repeat split; try assumption.
  intros k Hk. apply list_lookup_insert_ne. lia.
Qed.

Lemma open_terminal_macro_frame_witness :
  injected (snd (process_key LINUX_KEY_MAX (command_kbd 767) KEY_B true))
    = open_terminal_events /\
  command_mode (fst (process_key LINUX_KEY_MAX (command_kbd 767) KEY_B true)) = true /\
  ctrl_pressed (fst (process_key LINUX_KEY_MAX (command_kbd 767) KEY_B true)) = false /\
  space_pressed (fst (process_key LINUX_KEY_MAX (command_kbd 767) KEY_B true)) = false /\
  key_state (fst (process_key LINUX_KEY_MAX (command_kbd 767) KEY_B true))
    !! N.to_nat KEY_LEFTCTRL = key_state (command_kbd 767) !! N.to_nat KEY_LEFTCTRL.
Proof.
  assert (He : injected (snd (process_key LINUX_KEY_MAX (command_kbd 767) KEY_B true))
               = open_terminal_events) by reflexivity.
  destruct (open_terminal_macro_frame LINUX_KEY_MAX (command_kbd 767) He)
    as (_ & Hm & Hc & Hs & _ & Hk).
  split; [exact He|]. split; [exact Hm|]. split; [exact Hc|]. split; [exact Hs|].
  apply (Hk KEY_LEFTCTRL). discriminate.
Defined.

(** C8, as stated, fails: the device is brought to Command mode with Ctrl
    still held (Ctrl, Ctrl+Space, Space released); the next report adds
    Space, a key other than B and Q, and its press completes the chord:
    the mode goes back to Normal and nothing is forwarded. *)
Lemma unknown_command_press_counterexample :
  match session LINUX_KEY_MAX (probe_driver LINUX_KEY_MAX old_keys_init)
          [boot_report [KEY_LEFTCTRL; 0; 0; 0; 0; 0];
           boot_report [KEY_LEFTCTRL; KEY_SPACE; 0; 0; 0; 0];
           boot_report [KEY_LEFTCTRL; 0; 0; 0; 0; 0]] with
  | Some (d, _) =>
      command_mode (dev d) = true /\
      KEY_SPACE <> KEY_B /\ KEY_SPACE <> KEY_Q /\ KEY_SPACE < LINUX_KEY_MAX /\
      key_diff (old_keys d) [KEY_LEFTCTRL; KEY_SPACE; 0; 0; 0; 0] = [(KEY_SPACE, true)] /\
      injected (snd (process_key LINUX_KEY_MAX (dev d) KEY_SPACE true)) = [] /\
      command_mode (fst (process_key LINUX_KEY_MAX (dev d) KEY_SPACE true)) = false /\
      ~ (injected (snd (process_key LINUX_KEY_MAX (dev d) KEY_SPACE true))
           = [(KEY_SPACE, false)] /\
         command_mode (fst (process_key LINUX_KEY_MAX (dev d) KEY_SPACE true)) = true)
  | None => False
  end.
Proof.
  vm_compute.
  repeat split; try discriminate.
  intros [H _]. discriminate H.
Qed.

(** C8, amended: in Command mode, a press of a key other than B and Q
    that passes the range check and does not leave both the Ctrl and the
    Space latch set forwards exactly the release of that key and leaves
    the mode Command. *)
Theorem unknown_command_press (KEY_MAX : N) (kbd : usbkbd_cmd) (keycode : N) :
  keycode < KEY_MAX ->
  command_mode kbd = true ->
  keycode <> KEY_B -> keycode <> KEY_Q ->
  ctrl_held kbd keycode true && space_held kbd keycode true = false ->
  injected (snd (process_key KEY_MAX kbd keycode true)) = [(keycode, false)] /\
  command_mode (fst (process_key KEY_MAX kbd keycode true)) = true /\
  process_key KEY_MAX kbd keycode true =
    (record_key kbd keycode true, [InputKey keycode false]).
Proof.
  intros Hr Hm HB HQ Hc.
  rewrite process_key_in_range by exact Hr. cbv zeta.
  unfold chord. rewrite Hc, Hm. simpl.
  apply N.eqb_neq in HB, HQ. rewrite HB, HQ. simpl.
  rewrite record_key_command_mode. auto.
Qed.

Lemma unknown_command_press_witness :
  30 < LINUX_KEY_MAX /\ command_mode (command_kbd 767) = true /\
  30 <> KEY_B /\ 30 <> KEY_Q /\
  ctrl_held (command_kbd 767) 30 true && space_held (command_kbd 767) 30 true = false /\
  injected (snd (process_key LINUX_KEY_MAX (command_kbd 767) 30 true)) = [(30, false)] /\
  command_mode (fst (process_key LINUX_KEY_MAX (command_kbd 767) 30 true)) = true.
Proof.
  assert (HB : 30 <> KEY_B) by discriminate.
  assert (HQ : 30 <> KEY_Q) by discriminate.
  destruct (unknown_command_press LINUX_KEY_MAX (command_kbd 767) 30
              eq_refl eq_refl HB HQ eq_refl) as (Ho & Hm & _).
  repeat split; assumption.
Defined.

(** C6 on the code.  With the kernel's KEY_MAX, a press of B forwards
    the macro and the release of B exactly when the device is in Command
    mode and the Ctrl and Space latches are not both set; when both are
    set the press is taken by the chord test, nothing is forwarded and the
    mode is toggled.  The failing input: Ctrl, then Space with Ctrl held,
    bring the device to Command mode; with both still held the next report
    adds B; the mode goes back to Normal and the macro is not emitted. *)
Theorem open_terminal_press_under_held_chord :
  (forall kbd : usbkbd_cmd,
     injected (snd (process_key LINUX_KEY_MAX kbd KEY_B true)) =
       (if ctrl_pressed kbd && space_pressed kbd then []
        else if command_mode kbd then open_terminal_events
        else [(KEY_B, true)]) /\
     command_mode (fst (process_key LINUX_KEY_MAX kbd KEY_B true)) =
       (if ctrl_pressed kbd && space_pressed kbd then negb (command_mode kbd)
        else command_mode kbd)) /\
  match session LINUX_KEY_MAX (probe_driver LINUX_KEY_MAX old_keys_init)
          [boot_report [KEY_LEFTCTRL; 0; 0; 0; 0; 0];
           boot_report [KEY_LEFTCTRL; KEY_SPACE; 0; 0; 0; 0]] with
  | Some (d, _) =>
      command_mode (dev d) = true /\
      key_diff (old_keys d) [KEY_LEFTCTRL; KEY_SPACE; KEY_B; 0; 0; 0] = [(KEY_B, true)] /\
      match usbkbd_cmd_irq LINUX_KEY_MAX d 0
              [0; 0; KEY_LEFTCTRL; KEY_SPACE; KEY_B; 0; 0; 0] with
      | Some (d', es) => command_mode (dev d') = false /\ injected es = []
      | None => False
      end
  | None => False
  end.
Proof.
  split.
  - intros kbd. rewrite process_key_in_range by reflexivity. cbv zeta.
    unfold chord, ctrl_held, space_held. simpl.
    rewrite andb_true_r.
    destruct (ctrl_pressed kbd && space_pressed kbd); simpl; [auto|].
    destruct (command_mode kbd) eqn:E; simpl; auto.
  - vm_compute. repeat split.
Qed.

Lemma key_diff_same (keys : list N) : key_diff keys keys = [].
Proof.
  assert (H : forall l : list N,
             (forall x, In x l -> In x keys) ->
             List.filter (fun o => negb (o =? 0) && negb (found_in o keys)) l = []).
  { induction l as [|x l IH]; intros Hl; simpl; [reflexivity|].
    replace (found_in x keys) with true
      by (symmetry; apply found_in_In, Hl; left; reflexivity).
    rewrite andb_false_r. apply IH. intros y Hy. apply Hl. right. exact Hy. }
  unfold key_diff, released_keys, pressed_keys.
  rewrite H by auto. reflexivity.
Qed.

(** C4 on the code.  What holds: a release never changes the mode, and a
    report equal to the stored one yields no transition at all, so holding
    Ctrl and Space does not toggle again.  The mode after a transition is
    given in full: it is negated whenever the chord test succeeds, and the
    test looks at the two latches and the direction only, not at which key
    is pressed.  What fails: after Ctrl and Space have put the device in
    Command mode and while both stay held, a report that adds a third key
    (30, the key A) toggles the mode back to Normal, the press of A being
    consumed. *)
Theorem third_key_press_toggles :
  (forall KEY_MAX kbd k,
     command_mode (fst (process_key KEY_MAX kbd k false)) = command_mode kbd) /\
  (forall keys, key_diff keys keys = []) /\
  (forall KEY_MAX kbd k p,
     command_mode (fst (process_key KEY_MAX kbd k p)) =
       if KEY_MAX <=? k then command_mode kbd
       else if chord kbd k p then negb (command_mode kbd)
       else if command_mode kbd && p && (k =? KEY_Q) then false
       else command_mode kbd) /\
  match session LINUX_KEY_MAX (probe_driver LINUX_KEY_MAX old_keys_init)
          [boot_report [KEY_LEFTCTRL; 0; 0; 0; 0; 0];
           boot_report [KEY_LEFTCTRL; KEY_SPACE; 0; 0; 0; 0]] with
  | Some (d, _) =>
      command_mode (dev d) = true /\
      ctrl_pressed (dev d) = true /\ space_pressed (dev d) = true /\
      key_diff (old_keys d) [KEY_LEFTCTRL; KEY_SPACE; 30; 0; 0; 0] = [(30, true)] /\
      match usbkbd_cmd_irq LINUX_KEY_MAX d 0
              [0; 0; KEY_LEFTCTRL; KEY_SPACE; 30; 0; 0; 0] with
      | Some (d', es) =>
          command_mode (dev d') = false /\ injected es = [] /\
          ctrl_pressed (dev d') = true /\ space_pressed (dev d') = true
      | None => False
      end
  | None => False
  end.
Proof.
  split; [exact process_key_command_mode_release|].
  split; [exact key_diff_same|].
  split.
  - intros KEY_MAX kbd k p.
    destruct (N.leb_spec KEY_MAX k) as [Hr|Hr].
    + rewrite process_key_out_of_range by exact Hr. reflexivity.
    + rewrite process_key_in_range by exact Hr. cbv zeta.
      destruct (chord kbd k p); [reflexivity|].
      destruct (command_mode kbd) eqn:E, p; simpl;
        rewrite ?record_key_command_mode, ?E; try reflexivity.
      destruct (N.eqb_spec k KEY_B) as [->|_]; simpl;
        rewrite ?record_key_command_mode, ?E; try reflexivity.
      destruct (k =? KEY_Q); simpl;
        rewrite ?record_key_command_mode, ?E; reflexivity.
  - vm_compute. repeat split.
Qed.

(** ** Session invariants *)










(** ** Normal mode *)

Lemma no_key_down_In (keys : list N) (k : N) :
  no_key_down keys = true -> In k keys -> k = 0.
Proof.
  unfold no_key_down. rewrite List.forallb_forall. intros H Hin.
  apply N.eqb_eq, H, Hin.
Qed.


Lemma key_diff_first_press (old_keys : list N) (A : N) :
  no_key_down old_keys = true -> A <> 0 ->
  key_diff old_keys [A; 0; 0; 0; 0; 0] = [(A, true)].
Proof.
  intros Hz HA. unfold key_diff.
  assert (Hrel : released_keys old_keys [A; 0; 0; 0; 0; 0] = []).
  { unfold released_keys. clear HA. induction old_keys as [|o l IH]; [reflexivity|].
    simpl in Hz. apply andb_true_iff in Hz as [Ho Hl].
    simpl. rewrite Ho. simpl. apply IH, Hl. }
  assert (Hnf : found_in A old_keys = false).
  { apply found_in_not_In. intros Hin. apply HA. eapply no_key_down_In; eassumption. }
  rewrite Hrel. unfold pressed_keys. simpl.
  apply N.eqb_neq in HA. rewrite HA, Hnf. reflexivity.
Qed.

Lemma key_diff_last_release (A : N) :
  A <> 0 -> key_diff [A; 0; 0; 0; 0; 0] [0; 0; 0; 0; 0; 0] = [(A, false)].
Proof.
  intros HA. apply N.eqb_neq in HA.
  unfold key_diff, released_keys, pressed_keys. simpl. rewrite HA. reflexivity.
Qed.

(** A press that does not complete the chord, in Normal mode. *)
Lemma process_key_normal (KEY_MAX : N) (kbd : usbkbd_cmd) (k : N) (p : bool) :
  k < KEY_MAX -> command_mode kbd = false -> chord kbd k p = false ->
  process_key KEY_MAX kbd k p = (record_key kbd k p, [InputKey k p]).
Proof.
  intros Hr Hm Hc. rewrite process_key_in_range by exact Hr. cbv zeta.
  rewrite Hc, Hm. reflexivity.
Qed.






(** ** Transfer status and buffer size *)

(** C5, as stated, fails: a three-byte buffer delivered with status 0 is
    not answered by a logged drop that leaves the driver as it was; the
    copy of bytes 2..7 runs past the end of the buffer and the callback
    has no defined outcome. *)
Lemma short_report_counterexample :
  (length [0; 0; 4] < 8)%nat /\
  usbkbd_cmd_irq LINUX_KEY_MAX (probe_driver LINUX_KEY_MAX old_keys_init) 0 [0; 0; 4] = None /\
  ~ (exists es,
       usbkbd_cmd_irq LINUX_KEY_MAX (probe_driver LINUX_KEY_MAX old_keys_init) 0 [0; 0; 4]
         = Some (probe_driver LINUX_KEY_MAX old_keys_init, es) /\
       injected es = []).
Proof.
  split; [simpl; lia|]. split; [reflexivity|].
  intros (es & H & _). discriminate H.
Qed.

Lemma read_keys_length (data : list N) :
  read_keys data = if (8 <=? length data)%nat then Some (take 6 (drop 2 data)) else None.
Proof.
  unfold read_keys. rewrite length_take, length_drop.
  destruct (Nat.leb_spec 8 (length data));
    destruct (Nat.eqb_spec (6 `min` (length data - 2)) 6); try reflexivity; lia.
Qed.

(** C5, amended: the callback has no length check and no decode error.
    A transfer with a non-zero status is dropped: the status is logged,
    nothing is forwarded, the driver state is unchanged (and the urb is not
    resubmitted).  With status 0 and a buffer of at least 8 bytes the six
    bytes at offsets 2..7 are always decoded and processed.  With status 0
    and a shorter buffer the copy reads past the buffer: no outcome is
    defined, and nothing is logged. *)
Theorem report_decoding (KEY_MAX : N) (d : driver) (status : Z) (data : list N) :
  (status <> 0%Z ->
     usbkbd_cmd_irq KEY_MAX d status data = Some (d, [LogUrbStatus status])) /\
  (status = 0%Z -> (8 <= length data)%nat ->
     read_keys data = Some (take 6 (drop 2 data)) /\
     length (take 6 (drop 2 data)) = 6%nat /\
     usbkbd_cmd_irq KEY_MAX d status data =
       Some (mk_driver (take 6 (drop 2 data))
               (fst (process_keys KEY_MAX (dev d)
                       (key_diff (old_keys d) (take 6 (drop 2 data))))),
             snd (process_keys KEY_MAX (dev d)
                    (key_diff (old_keys d) (take 6 (drop 2 data)))) ++ [SubmitUrb])) /\
  (status = 0%Z -> (length data < 8)%nat ->
     usbkbd_cmd_irq KEY_MAX d status data = None).
Proof.
  rewrite usbkbd_cmd_irq_unfold, read_keys_length.
  split; [|split].
  - intros Hs. apply Z.eqb_neq in Hs. rewrite Hs. reflexivity.
  - intros -> Hl.
    destruct (Nat.leb_spec 8 (length data)); [|lia].
    split; [reflexivity|]. split.
    + rewrite length_take, length_drop. lia.
    + simpl. destruct (process_keys KEY_MAX (dev d) _); reflexivity.
  - intros -> Hl.
    destruct (Nat.leb_spec 8 (length data)); [lia|reflexivity].
Qed.

Lemma report_decoding_witness :
  (usbkbd_cmd_irq LINUX_KEY_MAX (probe_driver LINUX_KEY_MAX old_keys_init) (-71) [0; 0; 4; 0; 0; 0; 0; 0]
     = Some (probe_driver LINUX_KEY_MAX old_keys_init, [LogUrbStatus (-71)])) /\
  (read_keys [0; 0; 4; 0; 0; 0; 0; 0] = Some (take 6 (drop 2 [0; 0; 4; 0; 0; 0; 0; 0]))) /\
  (usbkbd_cmd_irq LINUX_KEY_MAX (probe_driver LINUX_KEY_MAX old_keys_init) 0 [0; 0; 4] = None).
Proof.
  split; [|split].
  - apply (report_decoding LINUX_KEY_MAX (probe_driver LINUX_KEY_MAX old_keys_init) (-71)
             [0; 0; 4; 0; 0; 0; 0; 0]).
    discriminate.
  - apply (report_decoding LINUX_KEY_MAX (probe_driver LINUX_KEY_MAX old_keys_init) 0
             [0; 0; 4; 0; 0; 0; 0; 0]); [reflexivity | simpl; lia].
  - apply (report_decoding LINUX_KEY_MAX (probe_driver LINUX_KEY_MAX old_keys_init) 0 [0; 0; 4]);
      [reflexivity | simpl; lia].
Defined.

(** ** Keys left pressed at the virtual input device *)


Lemma visible_from_open_terminal (k : N) (v : bool) :
  visible_from k v (send_ctrl_alt_t ++ send_key KEY_B false) = true -> v = true.
Proof.
  unfold send_ctrl_alt_t, send_key. cbn [app visible_from].
  destruct (KEY_LEFTCTRL =? k), (KEY_LEFTALT =? k), (KEY_T =? k), (KEY_B =? k);
    intros H; try discriminate H; exact H.
Qed.




Lemma visible_from_released (k : N) (es : list effect) :
  visible_from k true es = false ->
  exists j : nat, injected es !! j = Some (k, false).
Proof.
  induction es as [|e es IH]; simpl; [discriminate|].
  destruct e as [k' p| | | |]; try exact IH.
  destruct (N.eqb_spec k' k) as [->|Hne].
  - destruct p.
    + intros H. destruct (IH H) as [j Hj]. exists (S j). exact Hj.
    + intros _. exists 0%nat. reflexivity.
  - intros H. destruct (IH H) as [j Hj]. exists (S j). exact Hj.
Qed.

Lemma visible_from_released_after (k : N) (es : list effect) (v : bool) (i : nat) :
  visible_from k v es = false ->
  injected es !! i = Some (k, true) ->
  exists j : nat, (i < j)%nat /\ injected es !! j = Some (k, false).
Proof.
  revert v i. induction es as [|e es IH]; intros v i Hv Hi; simpl in *; [discriminate Hi|].
  destruct e as [k' p| | | |]; try (apply (IH v i Hv Hi)).
  destruct i as [|i]; simpl in Hi.
  - injection Hi as -> ->. rewrite N.eqb_refl in Hv.
    destruct (visible_from_released k es Hv) as [j Hj].
    exists (S j). split; [lia | exact Hj].
  - destruct (IH _ i Hv Hi) as (j & Hlt & Hj).
    exists (S j). split; [lia | exact Hj].
Qed.

Lemma not_visible_released_after (es : list effect) :
  (forall k, visible k es = false) -> released_after (injected es).
Proof.
  intros H i k Hi. eapply visible_from_released_after; [apply H | exact Hi].
Qed.




(** ** Further properties of the differ and of the state machine *)

Lemma filter_nil_forallb {A : Type} (f : A -> bool) (l : list A) :
  List.filter f l = [] <-> List.forallb (fun x => negb (f x)) l = true.
Proof.
  induction l as [|x l IH]; simpl; [tauto|].
  destruct (f x); simpl; [split; discriminate | exact IH].
Qed.

Lemma same_keys_key_diff (old_keys keys : list N) :
  same_keys old_keys keys = true <-> key_diff old_keys keys = [].
Proof.
  unfold same_keys, key_diff, released_keys, pressed_keys.
  rewrite andb_true_iff.
  assert (He : forall (l other : list N),
             List.forallb (fun o => (o =? 0) || found_in o other) l = true <->
             List.filter (fun o => negb (o =? 0) && negb (found_in o other)) l = []).
  { intros l other. rewrite filter_nil_forallb.
    assert (Hf : forall o, (o =? 0) || found_in o other
                           = negb (negb (o =? 0) && negb (found_in o other)))
      by (intros o; destruct (o =? 0), (found_in o other); reflexivity).
    induction l as [|x l IH]; simpl; [tauto|]. rewrite Hf, !andb_true_iff, IH. tauto. }
  rewrite !He. split.
  - intros [-> ->]. reflexivity.
  - intros H. apply app_eq_nil in H as [H1 H2].
    split; [destruct (List.filter _ old_keys) | destruct (List.filter _ keys)];
      try reflexivity; discriminate.
Qed.

(** X1: a report that holds the same non-zero keycodes as the stored one, in
    whatever slots and however often, yields no transition, and only such
    a report does; the callback then forwards nothing, leaves the device
    state as it was, stores the new slots and resubmits the urb. *)
Theorem same_keys_no_transition
    (KEY_MAX : N) (d : driver) (data keys : list N) :
  read_keys data = Some keys ->
  (same_keys (old_keys d) keys = true <-> key_diff (old_keys d) keys = []) /\
  (same_keys (old_keys d) keys = true ->
   usbkbd_cmd_irq KEY_MAX d 0 data = Some (mk_driver keys (dev d), [SubmitUrb])).
Proof.
  intros Hr. split; [apply same_keys_key_diff|].
  intros Hs. apply same_keys_key_diff in Hs.
  rewrite usbkbd_cmd_irq_unfold, Hr, Hs. reflexivity.
Qed.

Lemma same_keys_no_transition_witness :
  usbkbd_cmd_irq LINUX_KEY_MAX
    (mk_driver [4; 5; 0; 0; 0; 0] (idle_kbd 767)) 0 [0; 0; 5; 0; 4; 4; 0; 0]
  = Some (mk_driver [5; 0; 4; 4; 0; 0] (idle_kbd 767), [SubmitUrb]).
Proof.
  apply (same_keys_no_transition LINUX_KEY_MAX
           (mk_driver [4; 5; 0; 0; 0; 0] (idle_kbd 767))
           [0; 0; 5; 0; 4; 4; 0; 0] [5; 0; 4; 4; 0; 0]); reflexivity.
Defined.

(** X2: in Command mode, with Ctrl and Space not both held, the press of Q
    leaves Command mode, logs the exit and forwards a release of Q; the
    release of Q that follows is processed in Normal mode and forwarded
    too: the virtual device sees Q released twice and never pressed. *)
Theorem exit_key_released_twice (KEY_MAX : N) (kbd : usbkbd_cmd) :
  KEY_Q < KEY_MAX ->
  command_mode kbd = true ->
  ctrl_pressed kbd && space_pressed kbd = false ->
  process_key KEY_MAX kbd KEY_Q true =
    (set_command_mode (set_key_state kbd KEY_Q true) false,
     [LogExitCommandMode; InputKey KEY_Q false]) /\
  injected (snd (process_keys KEY_MAX kbd [(KEY_Q, true); (KEY_Q, false)]))
    = [(KEY_Q, false); (KEY_Q, false)] /\
  command_mode (fst (process_keys KEY_MAX kbd [(KEY_Q, true); (KEY_Q, false)])) = false.
Proof.
  intros Hr Hm Hc.
  assert (H1 : process_key KEY_MAX kbd KEY_Q true =
    (set_command_mode (set_key_state kbd KEY_Q true) false,
     [LogExitCommandMode; InputKey KEY_Q false])).
  { rewrite process_key_in_range by exact Hr. cbv zeta.
    unfold chord, ctrl_held, space_held. simpl. rewrite Hc, Hm. reflexivity. }
  split; [exact H1|].
  cbn [process_keys]. rewrite H1.
  rewrite process_key_in_range by exact Hr. cbv zeta.
  unfold chord. rewrite andb_false_r. simpl. auto.
Qed.

Lemma exit_key_released_twice_witness :
  process_key LINUX_KEY_MAX (command_kbd 767) KEY_Q true =
    (set_command_mode (set_key_state (command_kbd 767) KEY_Q true) false,
     [LogExitCommandMode; InputKey KEY_Q false]) /\
  injected (snd (process_keys LINUX_KEY_MAX (command_kbd 767)
                   [(KEY_Q, true); (KEY_Q, false)]))
    = [(KEY_Q, false); (KEY_Q, false)] /\
  command_mode (fst (process_keys LINUX_KEY_MAX (command_kbd 767)
                       [(KEY_Q, true); (KEY_Q, false)])) = false.
Proof.
  apply (exit_key_released_twice LINUX_KEY_MAX (command_kbd 767)); reflexivity.
Defined.

(** X3: with neither latch set, pressing a Ctrl key and then Space, or Space
    and then a Ctrl key, toggles the mode once.  The second press is
    consumed; the first one is handled by the mode the device is in:
    forwarded as a press in Normal mode, answered by a release in Command
    mode. *)
Theorem chord_in_either_order (KEY_MAX : N) (kbd : usbkbd_cmd) (c : N) :
  c = KEY_LEFTCTRL \/ c = KEY_RIGHTCTRL ->
  c < KEY_MAX -> KEY_SPACE < KEY_MAX ->
  ctrl_pressed kbd = false -> space_pressed kbd = false ->
  (command_mode (fst (process_keys KEY_MAX kbd [(c, true); (KEY_SPACE, true)]))
     = negb (command_mode kbd) /\
   injected (snd (process_keys KEY_MAX kbd [(c, true); (KEY_SPACE, true)]))
     = [(c, negb (command_mode kbd))]) /\
  (command_mode (fst (process_keys KEY_MAX kbd [(KEY_SPACE, true); (c, true)]))
     = negb (command_mode kbd) /\
   injected (snd (process_keys KEY_MAX kbd [(KEY_SPACE, true); (c, true)]))
     = [(KEY_SPACE, negb (command_mode kbd))]).
Proof.
  intros Hc Hr Hs Hcp Hsp.
  assert (Hfirst : forall k, k < KEY_MAX -> k <> KEY_B -> k <> KEY_Q ->
            chord kbd k true = false ->
            process_key KEY_MAX kbd k true =
            (record_key kbd k true, [InputKey k (negb (command_mode kbd))])).
  { intros k Hk HB HQ Hch. rewrite process_key_in_range by exact Hk. cbv zeta.
    rewrite Hch. apply N.eqb_neq in HB, HQ. rewrite HB, HQ.
    destruct (command_mode kbd); reflexivity. }
  assert (Hsecond : forall kbd1 k, k < KEY_MAX -> chord kbd1 k true = true ->
            command_mode kbd1 = command_mode kbd ->
            process_key KEY_MAX kbd1 k true =
            (set_command_mode (record_key kbd1 k true) (negb (command_mode kbd)),
             [LogCommandMode (negb (command_mode kbd))])).
  { intros kbd1 k Hk Hch Hm1. rewrite process_key_in_range by exact Hk. cbv zeta.
    rewrite Hch, Hm1. reflexivity. }
  assert (Hc1 : chord kbd c true = false).
  { unfold chord, space_held. rewrite Hsp.
    destruct Hc as [-> | ->]; reflexivity. }
  assert (Hc2 : chord (record_key kbd c true) KEY_SPACE true = true).
  { unfold chord, ctrl_held, space_held. simpl.
    rewrite record_key_ctrl_pressed. unfold ctrl_held.
    destruct Hc as [-> | ->]; reflexivity. }
  assert (Hs1 : chord kbd KEY_SPACE true = false).
  { unfold chord, ctrl_held. simpl. rewrite Hcp. reflexivity. }
  assert (Hs2 : chord (record_key kbd KEY_SPACE true) c true = true).
  { unfold chord, ctrl_held, space_held.
    rewrite record_key_space_pressed. unfold space_held.
    destruct Hc as [-> | ->]; reflexivity. }
  assert (HcB : c <> KEY_B) by (destruct Hc as [-> | ->]; discriminate).
  assert (HcQ : c <> KEY_Q) by (destruct Hc as [-> | ->]; discriminate).
  cbn [process_keys].
  rewrite (Hfirst c Hr HcB HcQ Hc1).
  rewrite (Hsecond (record_key kbd c true) KEY_SPACE Hs Hc2
             (record_key_command_mode kbd c true)).
  rewrite (Hfirst KEY_SPACE Hs ltac:(discriminate) ltac:(discriminate) Hs1).
  rewrite (Hsecond (record_key kbd KEY_SPACE true) c Hr Hs2
             (record_key_command_mode kbd KEY_SPACE true)).
  simpl. auto.
Qed.

Lemma chord_in_either_order_witness :
  (command_mode (fst (process_keys LINUX_KEY_MAX (idle_kbd 767)
                        [(KEY_RIGHTCTRL, true); (KEY_SPACE, true)])) = true /\
   injected (snd (process_keys LINUX_KEY_MAX (idle_kbd 767)
                    [(KEY_RIGHTCTRL, true); (KEY_SPACE, true)]))
     = [(KEY_RIGHTCTRL, true)]) /\
  (command_mode (fst (process_keys LINUX_KEY_MAX (idle_kbd 767)
                        [(KEY_SPACE, true); (KEY_RIGHTCTRL, true)])) = true /\
   injected (snd (process_keys LINUX_KEY_MAX (idle_kbd 767)
                    [(KEY_SPACE, true); (KEY_RIGHTCTRL, true)]))
     = [(KEY_SPACE, true)]).
Proof.
  apply (chord_in_either_order LINUX_KEY_MAX (idle_kbd 767) KEY_RIGHTCTRL);
    [right; reflexivity | reflexivity | reflexivity | reflexivity | reflexivity].
Defined.

(** X4: a transition processed in Command mode never turns a key on at the
    virtual input device: a key seen as pressed after it was seen as
    pressed before it, and every press it forwards (those of the macro) is
    followed by a release of the same keycode. *)
Theorem command_mode_never_presses
    (KEY_MAX : N) (kbd : usbkbd_cmd) (t : N) (p : bool) :
  command_mode kbd = true ->
  (forall k v, visible_from k v (snd (process_key KEY_MAX kbd t p)) = true -> v = true) /\
  released_after (injected (snd (process_key KEY_MAX kbd t p))).
Proof.
  intros Hm.
  assert (H : forall k v,
             visible_from k v (snd (process_key KEY_MAX kbd t p)) = true -> v = true).
  { intros k v.
    destruct (N.lt_ge_cases t KEY_MAX) as [Hr|Hr].
    2: { rewrite process_key_out_of_range by exact Hr. auto. }
    rewrite process_key_in_range by exact Hr. cbv zeta. rewrite Hm.
    destruct (chord kbd t p); [auto|]. simpl negb. cbv iota.
    destruct p; simpl negb; cbv iota; [|auto].
    destruct (t =? KEY_B); [apply visible_from_open_terminal|].
    destruct (t =? KEY_Q); unfold send_key; cbn [snd visible_from];
      match goal with |- context [?x =? k] => destruct (x =? k) end;
      intros Hv; try discriminate Hv; exact Hv. }
  split; [exact H|].
  apply not_visible_released_after. intros k. unfold visible.
  destruct (visible_from k false _) eqn:E; [|reflexivity].
  apply H in E. discriminate E.
Qed.

Lemma command_mode_never_presses_witness :
  released_after
    (injected (snd (process_key LINUX_KEY_MAX (command_kbd 767) KEY_B true))) /\
  injected (snd (process_key LINUX_KEY_MAX (command_kbd 767) KEY_B true))
    = open_terminal_events.
Proof.
  split; [|reflexivity].
  apply (command_mode_never_presses LINUX_KEY_MAX (command_kbd 767) KEY_B true).
  reflexivity.
Defined.

(** ** Further session invariants *)






(** ** Sessions without the chord *)

Lemma injected_app (es1 es2 : list effect) :
  injected (es1 ++ es2) = injected es1 ++ injected es2.
Proof.
  induction es1 as [|e es1 IH]; simpl; [reflexivity|].
  destruct e; simpl; rewrite ?IH; reflexivity.
Qed.





(** ** Resubmission and buffer bounds *)

Lemma submissions_app (es1 es2 : list effect) :
  submissions (es1 ++ es2) = (submissions es1 + submissions es2)%nat.
Proof.
  induction es1 as [|e es1 IH]; simpl; [reflexivity|].
  destruct e; simpl; rewrite ?IH; reflexivity.
Qed.

Lemma process_key_submissions (KEY_MAX : N) (kbd : usbkbd_cmd) (t : N) (p : bool) :
  submissions (snd (process_key KEY_MAX kbd t p)) = O.
Proof.
  unfold process_key.
  repeat match goal with
         | |- context [if ?c then _ else _] => destruct c
         end; reflexivity.
Qed.

Lemma process_keys_submissions (KEY_MAX : N) (ts : list (N * bool)) (kbd : usbkbd_cmd) :
  submissions (snd (process_keys KEY_MAX kbd ts)) = O.
Proof.
  revert kbd. induction ts as [|[t p] ts IH]; intros kbd; simpl; [reflexivity|].
  pose proof (process_key_submissions KEY_MAX kbd t p) as H1.
  destruct (process_key KEY_MAX kbd t p) as [kbd1 e1].
  specialize (IH kbd1).
  destruct (process_keys KEY_MAX kbd1 ts) as [kbd2 e2]. simpl in *.
  rewrite submissions_app, H1, IH. reflexivity.
Qed.

(** X7: the urb is resubmitted once for each transfer delivered with status
    0 and never for a transfer delivered with an error status: over a
    session the resubmissions are as many as the completed transfers, and
    a callback with a non-zero status submits nothing. *)
Theorem urb_resubmitted_only_on_success
    (KEY_MAX : N) (urbs : list (Z * list N)) (d d' : driver) (es : list effect) :
  session KEY_MAX d urbs = Some (d', es) ->
  submissions es = completed urbs /\
  (forall status data d1 e1,
     status <> 0%Z ->
     usbkbd_cmd_irq KEY_MAX d status data = Some (d1, e1) ->
     submissions e1 = O /\ d1 = d).
Proof.
  intros Hsess. split.
  - revert d es Hsess. induction urbs as [|[status data] urbs IH];
      intros d es Hsess; simpl in Hsess.
    + injection Hsess as _ <-. reflexivity.
    + destruct (usbkbd_cmd_irq KEY_MAX d status data) as [[d1 e1]|] eqn:E1; [|discriminate].
      destruct (session KEY_MAX d1 urbs) as [[d2 e2]|] eqn:E2; [|discriminate].
      injection Hsess as <- <-.
      rewrite submissions_app, (IH _ _ E2).
      rewrite usbkbd_cmd_irq_unfold in E1.
      unfold completed. cbn [List.filter fst].
      destruct (status =? 0)%Z; cbn [negb] in E1.
      * destruct (read_keys data) as [keys|]; [|discriminate].
        pose proof (process_keys_submissions KEY_MAX
                      (key_diff (old_keys d) keys) (dev d)) as H0.
        destruct (process_keys KEY_MAX (dev d) _) as [kbd1 es1].
        injection E1 as _ <-. simpl in H0.
        rewrite submissions_app, H0. reflexivity.
      * injection E1 as _ <-. reflexivity.
  - intros status data d1 e1 Hne Hirq.
    rewrite usbkbd_cmd_irq_unfold in Hirq.
    apply Z.eqb_neq in Hne. rewrite Hne in Hirq.
    injection Hirq as <- <-. auto.
Qed.

Lemma urb_resubmitted_only_on_success_witness :
  session LINUX_KEY_MAX (mk_driver [0; 0; 0; 0; 0; 0] (idle_kbd 767))
    [boot_report [4; 0; 0; 0; 0; 0]; ((-71)%Z, [0; 0; 4; 5; 0; 0; 0; 0]);
     boot_report [0; 0; 0; 0; 0; 0]]
  = Some (mk_driver [0; 0; 0; 0; 0; 0] (idle_kbd 767),
          [InputKey 4 true; SubmitUrb; LogUrbStatus (-71);
           InputKey 4 false; SubmitUrb]) /\
  submissions [InputKey 4 true; SubmitUrb; LogUrbStatus (-71);
               InputKey 4 false; SubmitUrb] = 2%nat.
Proof.
  assert (Hs : session LINUX_KEY_MAX (mk_driver [0; 0; 0; 0; 0; 0] (idle_kbd 767))
    [boot_report [4; 0; 0; 0; 0; 0]; ((-71)%Z, [0; 0; 4; 5; 0; 0; 0; 0]);
     boot_report [0; 0; 0; 0; 0; 0]]
  = Some (mk_driver [0; 0; 0; 0; 0; 0] (idle_kbd 767),
          [InputKey 4 true; SubmitUrb; LogUrbStatus (-71);
           InputKey 4 false; SubmitUrb]))
    by (vm_compute; reflexivity).
  split; [exact Hs|].
  apply (urb_resubmitted_only_on_success _ _ _ _ _ Hs).
Defined.

(** ** Probe and disconnect *)

Lemma find_int_in_Some (f : usb_endpoint_descriptor -> bool)
    (eps : list usb_endpoint_descriptor) (ep : usb_endpoint_descriptor) :
  find_int_in f eps = Some ep ->
  exists pre post, eps = pre ++ ep :: post /\
                   Forall (fun e => f e = false) pre /\ f ep = true.
Proof.
  induction eps as [|e eps IH]; simpl; [discriminate|].
  destruct (f e) eqn:Ef.
  - intros [= ->]. exists [], eps. repeat split; [constructor | exact Ef].
  - intros H. destruct (IH H) as (pre & post & -> & Hpre & Hep).
    exists (e :: pre), post. repeat split; [constructor; assumption | exact Hep].
Qed.

Lemma find_int_in_None (f : usb_endpoint_descriptor -> bool)
    (eps : list usb_endpoint_descriptor) :
  find_int_in f eps = None <-> forall e, In e eps -> f e = false.
Proof.
  induction eps as [|e eps IH]; simpl; [tauto|].
  destruct (f e) eqn:Ef.
  - split; [discriminate|]. intros H. rewrite (H e) in Ef by auto. discriminate.
  - rewrite IH. split.
    + intros H e' [<-|Hin]; auto.
    + intros H e' Hin. apply H. auto.
Qed.

(** What the structure probe stores in the interface data is made of. *)
Lemma probe_instance (KEY_MAX : N) (is_int_in : usb_endpoint_descriptor -> bool)
    (k : kernel) (interface : usb_interface) (inst : usbkbd_instance) :
  intfdata (usbkbd_cmd_probe KEY_MAX is_int_in k interface) = Some inst ->
  exists pre ep post,
    endpoint interface = pre ++ ep :: post /\
    Forall (fun e => is_int_in e = false) pre /\ is_int_in ep = true /\
    data_size inst = wMaxPacketSize ep /\
    irq inst = mk_urb (bEndpointAddress ep) (wMaxPacketSize ep) (bInterval ep) /\
    core inst = mk_usbkbd_cmd false false false (replicate (N.to_nat KEY_MAX) false).
Proof.
  unfold usbkbd_cmd_probe.
  destruct (kzalloc_ok k); simpl; [|discriminate].
  destruct (input_allocate_device_ok k); simpl; [|discriminate].
  destruct (input_register_device_ret k =? 0)%Z; simpl; [|discriminate].
  destruct (find_int_in is_int_in (endpoint interface)) as [ep|] eqn:Ef; simpl;
    [|discriminate].
  destruct (find_int_in_Some _ _ _ Ef) as (pre & post & Heps & Hpre & Hep).
  destruct (usb_alloc_coherent_ok k); simpl; [|discriminate].
  destruct (usb_alloc_urb_ok k); simpl; [|discriminate].
  destruct (usb_submit_urb_ret k =? 0)%Z; simpl;
    intros [= <-]; exists pre, ep, post; simpl; repeat split; assumption.
Qed.

(** X8: probe returns 0 exactly when every kernel call succeeds and the
    interface has an interrupt-IN endpoint.  It stores the structure in
    the interface data exactly when every step up to and including
    usb_alloc_urb succeeds and such an endpoint exists, whatever
    usb_submit_urb then returns: a probe that fails at the submission
    returns the error of usb_submit_urb and leaves the interface data
    set.  The stored structure uses the first interrupt-IN endpoint in
    descriptor order: its wMaxPacketSize is the size of the transfer
    buffer, whatever its value, and its address and interval fill the
    urb; the command-mode state starts in Normal mode with both latches
    clear and no key marked down. *)
Theorem probe_succeeds_iff
    (KEY_MAX : N) (is_int_in : usb_endpoint_descriptor -> bool)
    (k : kernel) (interface : usb_interface) :
  (retval (usbkbd_cmd_probe KEY_MAX is_int_in k interface) = 0%Z <->
     kzalloc_ok k = true /\ input_allocate_device_ok k = true /\
     input_register_device_ret k = 0%Z /\
     (exists ep, In ep (endpoint interface) /\ is_int_in ep = true) /\
     usb_alloc_coherent_ok k = true /\ usb_alloc_urb_ok k = true /\
     usb_submit_urb_ret k = 0%Z) /\
  (intfdata (usbkbd_cmd_probe KEY_MAX is_int_in k interface) <> None <->
     kzalloc_ok k = true /\ input_allocate_device_ok k = true /\
     input_register_device_ret k = 0%Z /\
     (exists ep, In ep (endpoint interface) /\ is_int_in ep = true) /\
     usb_alloc_coherent_ok k = true /\ usb_alloc_urb_ok k = true) /\
  (intfdata (usbkbd_cmd_probe KEY_MAX is_int_in k interface) <> None ->
     retval (usbkbd_cmd_probe KEY_MAX is_int_in k interface) = usb_submit_urb_ret k) /\
  (forall inst,
     intfdata (usbkbd_cmd_probe KEY_MAX is_int_in k interface) = Some inst ->
     exists pre ep post,
       endpoint interface = pre ++ ep :: post /\
       Forall (fun e => is_int_in e = false) pre /\ is_int_in ep = true /\
       data_size inst = wMaxPacketSize ep /\
       irq inst = mk_urb (bEndpointAddress ep) (wMaxPacketSize ep) (bInterval ep) /\
       core inst = mk_usbkbd_cmd false false false (replicate (N.to_nat KEY_MAX) false)).
Proof.
  split; [|split; [|split; [|intros inst; apply probe_instance]]];
    unfold usbkbd_cmd_probe.
  - destruct (kzalloc_ok k); simpl.
    2: { split; [discriminate | intros (H & _); discriminate]. }
    destruct (input_allocate_device_ok k); simpl.
    2: { split; [discriminate | intros (_ & H & _); discriminate]. }
    destruct (Z.eqb_spec (input_register_device_ret k) 0) as [Hreg|Hreg]; simpl.
    2: { split; [tauto | intros (_ & _ & H & _); tauto]. }
    destruct (find_int_in is_int_in (endpoint interface)) as [ep|] eqn:Ef; simpl.
    2: { pose proof (proj1 (find_int_in_None _ _) Ef) as Hnone.
         split; [discriminate|].
         intros (_ & _ & _ & (ep & Hin & Hep) & _).
         rewrite (Hnone ep Hin) in Hep. discriminate. }
    destruct (find_int_in_Some _ _ _ Ef) as (pre & post & Heps & Hpre & Hep).
    assert (Hex : exists ep0, In ep0 (endpoint interface) /\ is_int_in ep0 = true).
    { exists ep. split; [|exact Hep]. rewrite Heps. apply List.in_or_app. right. left.
      reflexivity. }
    destruct (usb_alloc_coherent_ok k); simpl.
    2: { split; [discriminate | intros (_ & _ & _ & _ & H & _); discriminate]. }
    destruct (usb_alloc_urb_ok k); simpl.
    2: { split; [discriminate | intros (_ & _ & _ & _ & _ & H & _); discriminate]. }
    destruct (Z.eqb_spec (usb_submit_urb_ret k) 0) as [Hsub|Hsub]; simpl.
    2: { split; [tauto | intros (_ & _ & _ & _ & _ & _ & H); tauto]. }
    split; [intros _; repeat split; assumption | reflexivity].
  - destruct (kzalloc_ok k); simpl.
    2: { split; [congruence | intros (H & _); discriminate]. }
    destruct (input_allocate_device_ok k); simpl.
    2: { split; [congruence | intros (_ & H & _); discriminate]. }
    destruct (Z.eqb_spec (input_register_device_ret k) 0) as [Hreg|Hreg]; simpl.
    2: { split; [congruence | intros (_ & _ & H & _); tauto]. }
    destruct (find_int_in is_int_in (endpoint interface)) as [ep|] eqn:Ef; simpl.
    2: { pose proof (proj1 (find_int_in_None _ _) Ef) as Hnone.
         split; [congruence|].
         intros (_ & _ & _ & (ep & Hin & Hep) & _).
         rewrite (Hnone ep Hin) in Hep. discriminate. }
    destruct (find_int_in_Some _ _ _ Ef) as (pre & post & Heps & Hpre & Hep).
    assert (Hex : exists ep0, In ep0 (endpoint interface) /\ is_int_in ep0 = true).
    { exists ep. split; [|exact Hep]. rewrite Heps. apply List.in_or_app. right. left.
      reflexivity. }
    destruct (usb_alloc_coherent_ok k); simpl.
    2: { split; [congruence | intros (_ & _ & _ & _ & H & _); discriminate]. }
    destruct (usb_alloc_urb_ok k); simpl.
    2: { split; [congruence | intros (_ & _ & _ & _ & _ & H); discriminate]. }
    destruct (usb_submit_urb_ret k =? 0)%Z; simpl;
      (split; [intros _; repeat split; assumption | discriminate]).
  - destruct (kzalloc_ok k); simpl; [|congruence].
    destruct (input_allocate_device_ok k); simpl; [|congruence].
    destruct (input_register_device_ret k =? 0)%Z; simpl; [|congruence].
    destruct (find_int_in is_int_in (endpoint interface)) as [ep|]; simpl; [|congruence].
    destruct (usb_alloc_coherent_ok k); simpl; [|congruence].
    destruct (usb_alloc_urb_ok k); simpl; [|congruence].
    destruct (Z.eqb_spec (usb_submit_urb_ret k) 0) as [Hsub|Hsub]; simpl;
      intros _; [symmetry; exact Hsub | reflexivity].
Qed.

Lemma probe_succeeds_iff_witness :
  retval (usbkbd_cmd_probe LINUX_KEY_MAX linux_usb_endpoint_is_int_in
            (mk_kernel true true 0 true true (-12))
            (mk_interface (mk_descriptor 1133 49948 272)
               [mk_endpoint 2 2 64 0; mk_endpoint 129 3 8 10; mk_endpoint 131 3 16 1]))
  = (-12)%Z /\
  exists pre ep post,
    [mk_endpoint 2 2 64 0; mk_endpoint 129 3 8 10; mk_endpoint 131 3 16 1]
      = pre ++ ep :: post /\
    Forall (fun e => linux_usb_endpoint_is_int_in e = false) pre /\
    linux_usb_endpoint_is_int_in ep = true /\
    8 = wMaxPacketSize ep /\
    mk_urb 129 8 10 = mk_urb (bEndpointAddress ep) (wMaxPacketSize ep) (bInterval ep) /\
    probe_kbd LINUX_KEY_MAX
      = mk_usbkbd_cmd false false false (replicate (N.to_nat LINUX_KEY_MAX) false).
Proof.
  destruct (probe_succeeds_iff LINUX_KEY_MAX linux_usb_endpoint_is_int_in
              (mk_kernel true true 0 true true (-12))
              (mk_interface (mk_descriptor 1133 49948 272)
                 [mk_endpoint 2 2 64 0; mk_endpoint 129 3 8 10; mk_endpoint 131 3 16 1]))
    as (_ & Hset & Hret & Hinst).
  split.
  - apply Hret. apply Hset. repeat split; try reflexivity.
    exists (mk_endpoint 129 3 8 10). split; [right; left; reflexivity | reflexivity].
  - apply (Hinst (mk_instance (probe_kbd LINUX_KEY_MAX)
                    (probe_input_dev LINUX_KEY_MAX
                       (mk_interface (mk_descriptor 1133 49948 272)
                          [mk_endpoint 2 2 64 0; mk_endpoint 129 3 8 10;
                           mk_endpoint 131 3 16 1]))
                    8 (mk_urb 129 8 10))).
    reflexivity.
Defined.

Lemma held_app (cs1 cs2 : list kcall) (rs : list resource) :
  held rs (cs1 ++ cs2) =
  match held rs cs1 with
  | Some rs' => held rs' cs2
  | None => None
  end.
Proof.
  revert rs. induction cs1 as [|c cs1 IH]; intros rs; [reflexivity|].
  cbn [app held].
  destruct c; try destruct ok; destruct rs as [|[] rs]; try apply IH; try reflexivity.
  - destruct (ret =? 0)%Z; apply IH.
  - destruct (size =? size0); [apply IH | reflexivity].
Qed.

(** The resources probe holds when it returns: all four when it returns
    0, none otherwise, whether or not the interface data is set. *)
Lemma probe_held (KEY_MAX : N) (is_int_in : usb_endpoint_descriptor -> bool)
    (k : kernel) (interface : usb_interface) :
  (retval (usbkbd_cmd_probe KEY_MAX is_int_in k interface) <> 0%Z /\
   held [] (calls (usbkbd_cmd_probe KEY_MAX is_int_in k interface)) = Some []) \/
  (retval (usbkbd_cmd_probe KEY_MAX is_int_in k interface) = 0%Z /\
   exists inst,
     intfdata (usbkbd_cmd_probe KEY_MAX is_int_in k interface) = Some inst /\
     held [] (calls (usbkbd_cmd_probe KEY_MAX is_int_in k interface)) =
       Some [RUrb; RDma (data_size inst); RInputRegistered; RKbd]).
Proof.
  unfold usbkbd_cmd_probe.
  destruct (kzalloc_ok k); simpl; [|left; split; [discriminate | reflexivity]].
  destruct (input_allocate_device_ok k); simpl;
    [|left; split; [discriminate | reflexivity]].
  destruct (Z.eqb_spec (input_register_device_ret k) 0) as [Hreg|Hreg]; simpl.
  2: { left. split; [exact Hreg|].
       apply Z.eqb_neq in Hreg. rewrite Hreg. reflexivity. }
  rewrite Hreg.
  destruct (find_int_in is_int_in (endpoint interface)) as [ep|]; simpl;
    [|left; split; [discriminate | reflexivity]].
  destruct (usb_alloc_coherent_ok k); simpl;
    [|left; split; [discriminate | reflexivity]].
  destruct (usb_alloc_urb_ok k); simpl; rewrite ?N.eqb_refl;
    [|left; split; [discriminate | reflexivity]].
  destruct (Z.eqb_spec (usb_submit_urb_ret k) 0) as [Hsub|Hsub]; simpl;
    rewrite ?N.eqb_refl.
  - right. split; [reflexivity|]. eexists. split; reflexivity.
  - left. split; [exact Hsub | reflexivity].
Qed.

(** X9: whatever the kernel answers, the calls of probe follow a stack
    discipline: each release or use applies to the most recently acquired
    resource still held, the coherent buffer is freed with the size it was
    allocated with, and the input device is freed with input_free_device
    before registration and input_unregister_device after.  When probe
    returns an error everything it had acquired has been released, also
    when the interface data is set; when it returns 0 the interface data
    is set and probe holds the urb, the buffer, the registered input
    device and the structure, and nothing else. *)
Theorem probe_releases_what_it_acquired
    (KEY_MAX : N) (is_int_in : usb_endpoint_descriptor -> bool)
    (k : kernel) (interface : usb_interface) :
  is_Some (held [] (calls (usbkbd_cmd_probe KEY_MAX is_int_in k interface))) /\
  (retval (usbkbd_cmd_probe KEY_MAX is_int_in k interface) <> 0%Z ->
   held [] (calls (usbkbd_cmd_probe KEY_MAX is_int_in k interface)) = Some []) /\
  (retval (usbkbd_cmd_probe KEY_MAX is_int_in k interface) = 0%Z ->
   exists inst,
     intfdata (usbkbd_cmd_probe KEY_MAX is_int_in k interface) = Some inst /\
     held [] (calls (usbkbd_cmd_probe KEY_MAX is_int_in k interface)) =
       Some [RUrb; RDma (data_size inst); RInputRegistered; RKbd]).
Proof.
  destruct (probe_held KEY_MAX is_int_in k interface)
    as [[Hret Hheld] | [Hret (inst & Hi & Hheld)]].
  - split; [rewrite Hheld; eexists; reflexivity|].
    split; [intros _; exact Hheld | intros H; contradiction].
  - split; [rewrite Hheld; eexists; reflexivity|].
    split; [intros H; contradiction | intros _; exists inst; auto].
Qed.

Lemma probe_releases_what_it_acquired_witness :
  held [] (calls (usbkbd_cmd_probe LINUX_KEY_MAX linux_usb_endpoint_is_int_in
                    (mk_kernel true true 0 true true (-12))
                    (mk_interface (mk_descriptor 1133 49948 272)
                       [mk_endpoint 129 3 8 10]))) = Some [] /\
  calls (usbkbd_cmd_probe LINUX_KEY_MAX linux_usb_endpoint_is_int_in
           (mk_kernel true true 0 true true (-12))
           (mk_interface (mk_descriptor 1133 49948 272) [mk_endpoint 129 3 8 10]))
  = [Kzalloc true; InputAllocateDevice true; InputRegisterDevice 0;
     UsbAllocCoherent 8 true; UsbAllocUrb true; UsbFillIntUrb (mk_urb 129 8 10);
     UsbSetIntfdata; UsbSubmitUrb (-12); UsbFreeUrb; UsbFreeCoherent 8;
     InputUnregisterDevice; Kfree] /\
  intfdata (usbkbd_cmd_probe LINUX_KEY_MAX linux_usb_endpoint_is_int_in
              (mk_kernel true true 0 true true (-12))
              (mk_interface (mk_descriptor 1133 49948 272) [mk_endpoint 129 3 8 10]))
  <> None.
Proof.
  split; [|split; [reflexivity | discriminate]].
  apply (probe_releases_what_it_acquired LINUX_KEY_MAX linux_usb_endpoint_is_int_in
           (mk_kernel true true 0 true true (-12))
           (mk_interface (mk_descriptor 1133 49948 272) [mk_endpoint 129 3 8 10])).
  discriminate.
Defined.

(** X10: after a probe that returned 0, disconnect called with the
    interface data releases every resource probe holds, in the reverse
    order of acquisition, the urb being killed before it is freed:
    nothing is leaked and nothing is released twice.  After a probe that
    returned before setting the interface data, disconnect makes no call
    and nothing is held.  After a probe that failed at usb_submit_urb the
    interface data is still set although probe has released everything:
    a disconnect called with it kills and frees resources that are no
    longer held. *)
Theorem probe_then_disconnect_releases_everything
    (KEY_MAX : N) (is_int_in : usb_endpoint_descriptor -> bool)
    (k : kernel) (interface : usb_interface) :
  (retval (usbkbd_cmd_probe KEY_MAX is_int_in k interface) = 0%Z ->
   held [] (calls (usbkbd_cmd_probe KEY_MAX is_int_in k interface) ++
            usbkbd_cmd_disconnect
              (intfdata (usbkbd_cmd_probe KEY_MAX is_int_in k interface)))
   = Some []) /\
  (intfdata (usbkbd_cmd_probe KEY_MAX is_int_in k interface) = None ->
   usbkbd_cmd_disconnect
     (intfdata (usbkbd_cmd_probe KEY_MAX is_int_in k interface)) = [] /\
   held [] (calls (usbkbd_cmd_probe KEY_MAX is_int_in k interface) ++
            usbkbd_cmd_disconnect
              (intfdata (usbkbd_cmd_probe KEY_MAX is_int_in k interface)))
   = Some []) /\
  (retval (usbkbd_cmd_probe KEY_MAX is_int_in k interface) <> 0%Z ->
   intfdata (usbkbd_cmd_probe KEY_MAX is_int_in k interface) <> None ->
   held [] (calls (usbkbd_cmd_probe KEY_MAX is_int_in k interface)) = Some [] /\
   held [] (calls (usbkbd_cmd_probe KEY_MAX is_int_in k interface) ++
            usbkbd_cmd_disconnect
              (intfdata (usbkbd_cmd_probe KEY_MAX is_int_in k interface)))
   = None).
Proof.
  rewrite held_app.
  destruct (probe_held KEY_MAX is_int_in k interface)
    as [[Hret Hheld] | [Hret (inst & Hi & Hheld)]]; rewrite Hheld.
  - split; [intros H; contradiction|]. split.
    + intros ->. auto.
    + intros _ Hi. split; [reflexivity|].
      destruct (intfdata (usbkbd_cmd_probe KEY_MAX is_int_in k interface)) as [inst|];
        [reflexivity | contradiction].
  - rewrite Hi. split; [|split].
    + intros _. simpl. rewrite N.eqb_refl. reflexivity.
    + discriminate.
    + intros H. contradiction.
Qed.

Lemma probe_then_disconnect_releases_everything_witness :
  retval (usbkbd_cmd_probe LINUX_KEY_MAX linux_usb_endpoint_is_int_in
            (mk_kernel true true 0 true true (-12))
            (mk_interface (mk_descriptor 1133 49948 272) [mk_endpoint 129 3 8 10]))
  = (-12)%Z /\
  usbkbd_cmd_disconnect
    (intfdata (usbkbd_cmd_probe LINUX_KEY_MAX linux_usb_endpoint_is_int_in
                 (mk_kernel true true 0 true true (-12))
                 (mk_interface (mk_descriptor 1133 49948 272)
                    [mk_endpoint 129 3 8 10])))
  = [UsbKillUrb; UsbFreeUrb; UsbFreeCoherent 8; InputUnregisterDevice; Kfree;
     PrintkDisconnected] /\
  held [] (calls (usbkbd_cmd_probe LINUX_KEY_MAX linux_usb_endpoint_is_int_in
                    (mk_kernel true true 0 true true (-12))
                    (mk_interface (mk_descriptor 1133 49948 272)
                       [mk_endpoint 129 3 8 10])) ++
           usbkbd_cmd_disconnect
             (intfdata (usbkbd_cmd_probe LINUX_KEY_MAX linux_usb_endpoint_is_int_in
                          (mk_kernel true true 0 true true (-12))
                          (mk_interface (mk_descriptor 1133 49948 272)
                             [mk_endpoint 129 3 8 10]))))
  = None.
Proof.
  split; [reflexivity|]. split; [reflexivity|].
  apply (probe_then_disconnect_releases_everything LINUX_KEY_MAX
           linux_usb_endpoint_is_int_in
           (mk_kernel true true 0 true true (-12))
           (mk_interface (mk_descriptor 1133 49948 272) [mk_endpoint 129 3 8 10]));
    discriminate.
Defined.

(** ** Capabilities of the virtual input device *)

Lemma set_bits_from_lookup (n i j : nat) (bitmap : list bool) :
  (i + n <= length bitmap)%nat ->
  set_bits_from i n bitmap !! j =
  if decide (i <= j < i + n)%nat then Some true else bitmap !! j.
Proof.
  revert i bitmap. induction n as [|n IH]; intros i bitmap Hl; cbn [set_bits_from].
  - destruct (decide (i <= j < i + 0)%nat); [lia | reflexivity].
  - rewrite IH by (unfold set_bit; rewrite length_insert; lia).
    unfold set_bit.
    destruct (decide (S i <= j < S i + n)%nat) as [H1|H1],
             (decide (i <= j < i + S n)%nat) as [H2|H2]; try reflexivity; try lia.
    + assert (j = i) by lia. subst j. apply list_lookup_insert_eq. lia.
    + apply list_lookup_insert_ne. lia.
Qed.

Lemma probe_keybit (KEY_MAX : N) (interface : usb_interface) (k : N) :
  keybit (probe_input_dev KEY_MAX interface) !! N.to_nat k = Some true <-> k < KEY_MAX.
Proof.
  unfold probe_input_dev. cbn [keybit].
  rewrite set_bits_from_lookup by (rewrite length_replicate; lia).
  destruct (decide (0 <= N.to_nat k < 0 + N.to_nat KEY_MAX)%nat) as [H|H].
  - split; [intros _; lia | reflexivity].
  - split; [|lia]. intros E. apply lookup_replicate in E as [E _]. discriminate E.
Qed.

Lemma process_key_forwards_in_range (KEY_MAX : N) (kbd : usbkbd_cmd) (t : N) (q : bool)
    (k : N) (p : bool) :
  KEY_LEFTALT < KEY_MAX ->
  In (k, p) (injected (snd (process_key KEY_MAX kbd t q))) -> k < KEY_MAX.
Proof.
  intros Halt.
  destruct (N.lt_ge_cases t KEY_MAX) as [Hr|Hr].
  2: { rewrite process_key_out_of_range by exact Hr. intros []. }
  rewrite process_key_in_range by exact Hr. cbv zeta.
  destruct (chord kbd t q); [intros []|].
  destruct (negb (command_mode kbd)); [intros [[= <- _]|[]]; exact Hr|].
  destruct (negb q); [intros []|].
  destruct (N.eqb_spec t KEY_B) as [->|_].
  - simpl. unfold KEY_LEFTALT, KEY_LEFTCTRL, KEY_T, KEY_B in *.
    intros H. repeat destruct H as [[= <- _]|H]; try lia; try contradiction.
  - destruct (N.eqb_spec t KEY_Q) as [->|_]; intros [[= <- _]|[]]; exact Hr.
Qed.

(** X11: the virtual device declares the event type EV_KEY only and exactly
    the keycodes below KEY_MAX, and, provided the keys of the macro are
    below KEY_MAX, every event the callbacks forward, macro included, has
    a keycode the device has declared. *)
Theorem forwarded_keys_are_declared
    (KEY_MAX : N) (interface : usb_interface) (urbs : list (Z * list N))
    (d d' : driver) (es : list effect) :
  KEY_LEFTALT < KEY_MAX ->
  session KEY_MAX d urbs = Some (d', es) ->
  (forall k, keybit (probe_input_dev KEY_MAX interface) !! N.to_nat k = Some true
             <-> k < KEY_MAX) /\
  (forall j, evbit (probe_input_dev KEY_MAX interface) !! j = Some true
             <-> j = N.to_nat EV_KEY) /\
  (forall k p, In (k, p) (injected es) ->
     keybit (probe_input_dev KEY_MAX interface) !! N.to_nat k = Some true).
Proof.
  intros Halt Hsess. split; [apply probe_keybit|]. split.
  - intros j. unfold probe_input_dev, set_bit. simpl.
    destruct j as [|[|j]]; simpl; [split; discriminate | tauto |].
    split; [|discriminate]. intros E.
    change (replicate 30 false !! j = Some true) in E.
    apply lookup_replicate in E as [E _]. discriminate E.
  - assert (Hkeys : forall ts kbd k p,
              In (k, p) (injected (snd (process_keys KEY_MAX kbd ts))) -> k < KEY_MAX).
    { induction ts as [|[t q] ts IH]; intros kbd k p; simpl; [intros []|].
      pose proof (process_key_forwards_in_range KEY_MAX kbd t q k p Halt) as H1.
      destruct (process_key KEY_MAX kbd t q) as [kbd1 e1].
      specialize (IH kbd1 k p).
      destruct (process_keys KEY_MAX kbd1 ts) as [kbd2 e2]. simpl in *.
      rewrite injected_app, List.in_app_iff. tauto. }
    intros k p Hin. apply probe_keybit.
    revert d es Hsess Hin. induction urbs as [|[status data] urbs IH];
      intros d es Hsess Hin; simpl in Hsess.
    + injection Hsess as _ <-. destruct Hin.
    + destruct (usbkbd_cmd_irq KEY_MAX d status data) as [[d1 e1]|] eqn:E1; [|discriminate].
      destruct (session KEY_MAX d1 urbs) as [[d2 e2]|] eqn:E2; [|discriminate].
      injection Hsess as <- <-.
      rewrite injected_app, List.in_app_iff in Hin. destruct Hin as [Hin|Hin].
      * rewrite usbkbd_cmd_irq_unfold in E1.
        destruct (negb (status =? 0)%Z); [injection E1 as _ <-; destruct Hin|].
        destruct (read_keys data) as [keys|]; [|discriminate].
        pose proof (Hkeys (key_diff (old_keys d) keys) (dev d) k p) as H1.
        destruct (process_keys KEY_MAX (dev d) _) as [kbd1 es1].
        injection E1 as _ <-. simpl in H1.
        rewrite injected_app, List.in_app_iff in Hin.
        destruct Hin as [Hin|[]]. exact (H1 Hin).
      * exact (IH d1 e2 E2 Hin).
Qed.

Lemma forwarded_keys_are_declared_witness :
  session LINUX_KEY_MAX (mk_driver [0; 0; 0; 0; 0; 0] (command_kbd 767))
    [boot_report [KEY_B; 0; 0; 0; 0; 0]]
  = Some (mk_driver [KEY_B; 0; 0; 0; 0; 0]
            (mk_usbkbd_cmd true false false (<[48%nat := true]> (replicate 767 false))),
          send_ctrl_alt_t ++ [InputKey KEY_B false; SubmitUrb]) /\
  keybit (probe_input_dev LINUX_KEY_MAX (mk_interface (mk_descriptor 1133 49948 272) []))
    !! N.to_nat KEY_LEFTALT = Some true.
Proof.
  assert (Hs : session LINUX_KEY_MAX (mk_driver [0; 0; 0; 0; 0; 0] (command_kbd 767))
    [boot_report [KEY_B; 0; 0; 0; 0; 0]]
  = Some (mk_driver [KEY_B; 0; 0; 0; 0; 0]
            (mk_usbkbd_cmd true false false (<[48%nat := true]> (replicate 767 false))),
          send_ctrl_alt_t ++ [InputKey KEY_B false; SubmitUrb]))
    by (vm_compute; reflexivity).
  split; [exact Hs|].
  refine (proj2 (proj2 (forwarded_keys_are_declared LINUX_KEY_MAX
            (mk_interface (mk_descriptor 1133 49948 272) []) _ _ _ _ _ Hs))
            KEY_LEFTALT true _).
  - reflexivity.
  - simpl. auto.
Defined.

(** ** Buffer size chosen by probe *)

Lemma session_defined (KEY_MAX : N) (urbs : list (Z * list N)) (d : driver) :
  is_Some (session KEY_MAX d urbs) <-> buffers_ok urbs = true.
Proof.
  assert (Hnone : forall A, ~ is_Some (@None A)) by (intros A [x Hx]; discriminate).
  revert d. induction urbs as [|[status data] urbs IH]; intros d.
  - simpl. split; [reflexivity | eauto].
  - unfold buffers_ok in *. cbn [List.forallb fst snd session].
    rewrite usbkbd_cmd_irq_unfold, read_keys_length, andb_true_iff.
    destruct (negb (status =? 0)%Z); cbn [orb].
    + rewrite <- (IH d). destruct (session KEY_MAX d urbs) as [[d2 e2]|].
      * split; [intros _; split; [reflexivity | eauto] | eauto].
      * split; [intros H; destruct (Hnone _ H) | intros [_ H]; destruct (Hnone _ H)].
    + destruct (8 <=? length data)%nat.
      * destruct (process_keys KEY_MAX (dev d)
                    (key_diff (old_keys d) (take 6 (drop 2 data)))) as [kbd1 es1].
        rewrite <- (IH (mk_driver (take 6 (drop 2 data)) kbd1)).
        destruct (session KEY_MAX (mk_driver (take 6 (drop 2 data)) kbd1) urbs)
          as [[d2 e2]|].
        -- split; [intros _; split; [reflexivity | eauto] | eauto].
        -- split; [intros H; destruct (Hnone _ H) | intros [_ H]; destruct (Hnone _ H)].
      * split; [intros H; destruct (Hnone _ H) | intros [Hx _]; discriminate].
Qed.

(** X12: probe takes the size of the transfer buffer from the first
    interrupt-IN endpoint without checking it, and the callback reads
    bytes 2..7 without checking it either: for a device bound by probe, a
    session over buffers of its data_size bytes is defined exactly when
    the wMaxPacketSize of that endpoint is at least 8 or no transfer is
    delivered with status 0. *)
Theorem probed_buffer_bounds
    (KEY_MAX : N) (is_int_in : usb_endpoint_descriptor -> bool)
    (k : kernel) (interface : usb_interface) (inst : usbkbd_instance)
    (urbs : list (Z * list N)) (old_keys : list N) :
  intfdata (usbkbd_cmd_probe KEY_MAX is_int_in k interface) = Some inst ->
  (forall u, In u urbs -> length (snd u) = N.to_nat (data_size inst)) ->
  exists pre ep post,
    endpoint interface = pre ++ ep :: post /\
    Forall (fun e => is_int_in e = false) pre /\ is_int_in ep = true /\
    (is_Some (session KEY_MAX (mk_driver old_keys (core inst)) urbs) <->
     8 <= wMaxPacketSize ep \/ completed urbs = O).
Proof.
  intros Hp Hlen.
  destruct (probe_instance _ _ _ _ _ Hp) as (pre & ep & post & Heps & Hpre & Hep & Hsz & _).
  exists pre, ep, post.
  split; [exact Heps|]. split; [exact Hpre|]. split; [exact Hep|].
  rewrite <- Hsz, session_defined. unfold buffers_ok, completed.
  induction urbs as [|[status data] urbs IH].
  - simpl. split; [auto | reflexivity].
  - assert (Hlen' : forall u, In u urbs -> length (snd u) = N.to_nat (data_size inst))
      by (intros u Hu; apply Hlen; right; exact Hu).
    specialize (IH Hlen'). cbn [List.forallb List.filter fst snd].
    rewrite andb_true_iff, IH.
    pose proof (Hlen (status, data) (or_introl eq_refl)) as Hd. cbn [snd] in Hd.
    destruct (status =? 0)%Z; cbn [negb orb length].
    + destruct (Nat.leb_spec 8 (length data)).
      * split; [intros _; left; lia | intros _; split; [reflexivity | left; lia]].
      * split; [intros [H0 _]; discriminate | intros [H0|H0]; [lia | discriminate]].
    + split; [intros [_ H0]; exact H0 | intros H0; split; [reflexivity | exact H0]].
Qed.

Lemma probed_buffer_bounds_witness :
  intfdata (usbkbd_cmd_probe LINUX_KEY_MAX linux_usb_endpoint_is_int_in
              (mk_kernel true true 0 true true 0)
              (mk_interface (mk_descriptor 1133 49948 272)
                 [mk_endpoint 2 2 64 0; mk_endpoint 129 3 4 10]))
  = Some (mk_instance (probe_kbd LINUX_KEY_MAX)
            (probe_input_dev LINUX_KEY_MAX
               (mk_interface (mk_descriptor 1133 49948 272)
                  [mk_endpoint 2 2 64 0; mk_endpoint 129 3 4 10]))
            4 (mk_urb 129 4 10)) /\
  exists pre ep post,
    [mk_endpoint 2 2 64 0; mk_endpoint 129 3 4 10] = pre ++ ep :: post /\
    Forall (fun e => linux_usb_endpoint_is_int_in e = false) pre /\
    linux_usb_endpoint_is_int_in ep = true /\
    (is_Some (session LINUX_KEY_MAX
                (mk_driver [0; 0; 0; 0; 0; 0] (probe_kbd LINUX_KEY_MAX))
                [(0%Z, [0; 0; 4; 0])]) <->
     8 <= wMaxPacketSize ep \/ completed [(0%Z, [0; 0; 4; 0])] = O).
Proof.
  assert (Hp : intfdata (usbkbd_cmd_probe LINUX_KEY_MAX linux_usb_endpoint_is_int_in
              (mk_kernel true true 0 true true 0)
              (mk_interface (mk_descriptor 1133 49948 272)
                 [mk_endpoint 2 2 64 0; mk_endpoint 129 3 4 10]))
  = Some (mk_instance (probe_kbd LINUX_KEY_MAX)
            (probe_input_dev LINUX_KEY_MAX
               (mk_interface (mk_descriptor 1133 49948 272)
                  [mk_endpoint 2 2 64 0; mk_endpoint 129 3 4 10]))
            4 (mk_urb 129 4 10))) by reflexivity.
  split; [exact Hp|].
  apply (probed_buffer_bounds _ _ _ _ _ [(0%Z, [0; 0; 4; 0])] [0; 0; 0; 0; 0; 0] Hp).
  intros u [<-|[]]. reflexivity.
Defined.

(** ** Two keyboards and the static buffer *)

Lemma chord_record_key_again (kbd : usbkbd_cmd) (k : N) (p : bool) :
  chord (record_key kbd k p) k p = chord kbd k p.
Proof.
  unfold chord, ctrl_held, space_held.
  rewrite record_key_ctrl_pressed, record_key_space_pressed.
  unfold ctrl_held, space_held.
  destruct ((k =? KEY_LEFTCTRL) || (k =? KEY_RIGHTCTRL)), (k =? KEY_SPACE); reflexivity.
Qed.

(** X13: with two keyboards bound, the stored report is shared.  Keyboard A,
    in Normal mode, reports a key k and keeps it held; keyboard B, in
    Normal mode and idle, delivers an empty report: B's virtual device is
    sent a release of k, a key B never pressed, and the shared buffer now
    says no key is down; when A delivers its unchanged report again, the
    press of k is forwarded a second time. *)
Theorem shared_old_keys_leak
    (KEY_MAX : N) (s : two_keyboards) (k : N) (data_a data_b : list N) :
  read_keys data_a = Some [k; 0; 0; 0; 0; 0] ->
  read_keys data_b = Some [0; 0; 0; 0; 0; 0] ->
  0 < k < KEY_MAX ->
  no_key_down (shared_old_keys s) = true ->
  command_mode (kbd_a s) = false ->
  chord (kbd_a s) k true = false ->
  command_mode (kbd_b s) = false ->
  exists s1 s2 s3,
    irq_a KEY_MAX s 0 data_a = Some (s1, [InputKey k true; SubmitUrb]) /\
    irq_b KEY_MAX s1 0 data_b = Some (s2, [InputKey k false; SubmitUrb]) /\
    shared_old_keys s2 = [0; 0; 0; 0; 0; 0] /\
    kbd_a s2 = record_key (kbd_a s) k true /\
    irq_a KEY_MAX s2 0 data_a = Some (s3, [InputKey k true; SubmitUrb]).
Proof.
  intros Ha Hb [Hk0 Hk] Hz Hma Hca Hmb.
  assert (Hnz : k <> 0) by lia.
  eexists _, _, _. split; [|split; [|split; [|split]]].
  - unfold irq_a. rewrite usbkbd_cmd_irq_unfold. cbn [negb Z.eqb old_keys dev].
    rewrite Ha, (key_diff_first_press _ _ Hz Hnz). cbn [process_keys].
    rewrite (process_key_normal KEY_MAX (kbd_a s) k true Hk Hma Hca). reflexivity.
  - unfold irq_b. rewrite usbkbd_cmd_irq_unfold.
    cbn [negb Z.eqb old_keys dev shared_old_keys kbd_b].
    rewrite Hb, (key_diff_last_release _ Hnz). cbn [process_keys].
    rewrite (process_key_normal KEY_MAX (kbd_b s) k false Hk Hmb)
      by (unfold chord; apply andb_false_r).
    reflexivity.
  - reflexivity.
  - reflexivity.
  - unfold irq_a. rewrite usbkbd_cmd_irq_unfold.
    cbn [negb Z.eqb old_keys dev shared_old_keys kbd_a].
    rewrite Ha, key_diff_first_press by (reflexivity || exact Hnz). cbn [process_keys].
    rewrite (process_key_normal KEY_MAX (record_key (kbd_a s) k true) k true Hk).
    + reflexivity.
    + rewrite record_key_command_mode. exact Hma.
    + rewrite chord_record_key_again. exact Hca.
Qed.

Lemma shared_old_keys_leak_witness :
  exists s1 s2 s3,
    irq_a LINUX_KEY_MAX
      (mk_two_keyboards [0; 0; 0; 0; 0; 0] (idle_kbd 767) (idle_kbd 767))
      0 [0; 0; 4; 0; 0; 0; 0; 0] = Some (s1, [InputKey 4 true; SubmitUrb]) /\
    irq_b LINUX_KEY_MAX s1 0 [0; 0; 0; 0; 0; 0; 0; 0]
      = Some (s2, [InputKey 4 false; SubmitUrb]) /\
    shared_old_keys s2 = [0; 0; 0; 0; 0; 0] /\
    kbd_a s2 = record_key (idle_kbd 767) 4 true /\
    irq_a LINUX_KEY_MAX s2 0 [0; 0; 4; 0; 0; 0; 0; 0]
      = Some (s3, [InputKey 4 true; SubmitUrb]).
Proof.
  apply (shared_old_keys_leak LINUX_KEY_MAX
           (mk_two_keyboards [0; 0; 0; 0; 0; 0] (idle_kbd 767) (idle_kbd 767))
           4 [0; 0; 4; 0; 0; 0; 0; 0] [0; 0; 0; 0; 0; 0; 0; 0]);
    try reflexivity.
  split; reflexivity.
Defined.
